(** * Aruba Central portal: the bearer-token API client

    A shallow embedding of [dashboard/backend/central_api_client.py]
    (class [CentralAPIClient]) and the properties of its construction,
    of its pre-request token hook and of its four verb operations.

    Conventions of the embedding.
    - A Python [str] is a [string]; its characters are the code points
      below 256.
    - The session's header mapping is a [gmap string string]; the client
      only ever writes the keys ["Content-Type"] and ["Authorization"].
    - The token manager and the HTTP transport are collaborators that live
      outside the file: they are interfaces ([TokenManager], [Transport])
      whose state is held by the [World] the client runs in.
    - Every call of a collaborator is recorded in the world's [trace], so
      that "how many fetches" and "which request was sent" are observable.
    - An exception is a value of [Exn]; an operation returns an [Outcome].
    - [logger] calls have no influence on control flow or on results and
      are left out. *)

(** Two more functions are embedded after the client: [extract_tunnel_vlans]
    of [scripts/extract_vlans_from_wlans.py], on decoded JSON values with
    the builtin [str] as a parameter, and [load_config] of
    [utils/config.py], on the parsed [.env] file, the process environment
    and the parsed YAML document. The [main] functions of the scripts only
    print and call the dashboard and are not embedded. *)

From Stdlib Require Import ZArith String Ascii List Bool Lia.
From stdpp Require Import base option list gmap strings pretty.

Local Open Scope Z_scope.

(** ** Python string helpers used by the client *)

Module PyStr.

(** [str.rstrip(chars)] for a one-character [chars]. *)
Fixpoint rstrip (ch : ascii) (s : string) : string :=
  match s with
  | EmptyString => EmptyString
  | String a s' =>
      match rstrip ch s' with
      | EmptyString => if Ascii.eqb a ch then EmptyString else String a EmptyString
      | r => String a r
      end
  end.

(** [str.isspace] on one character, for code points below 256:
    TAB..CR, FS..US, SPACE, NEL and NBSP. *)
Definition isspace (a : ascii) : bool :=
  let n := N.to_nat (N_of_ascii a) in
  ((9 <=? n) && (n <=? 13))%nat || ((28 <=? n) && (n <=? 32))%nat
  || (n =? 133)%nat || (n =? 160)%nat.

Fixpoint lstrip_ws (s : string) : string :=
  match s with
  | EmptyString => EmptyString
  | String a s' => if isspace a then lstrip_ws s' else s
  end.

Fixpoint rstrip_ws (s : string) : string :=
  match s with
  | EmptyString => EmptyString
  | String a s' =>
      match rstrip_ws s' with
      | EmptyString => if isspace a then EmptyString else String a EmptyString
      | r => String a r
      end
  end.

(** [str.strip()] with no argument: whitespace removed at both ends. *)
Definition strip (s : string) : string := rstrip_ws (lstrip_ws s).

(** Truth value of a [str]: only the empty string is false. *)
Definition truthy (s : string) : bool :=
  match s with EmptyString => false | String _ _ => true end.

(** [n] copies of a character. *)
Fixpoint replicate_char (n : nat) (ch : ascii) : string :=
  match n with O => EmptyString | S n' => String ch (replicate_char n' ch) end.

(** Whether the last character of [s] is [ch]. *)
Fixpoint ends_with (ch : ascii) (s : string) : bool :=
  match s with
  | EmptyString => false
  | String a EmptyString => Ascii.eqb a ch
  | String _ s' => ends_with ch s'
  end.

End PyStr.

(** ** Values, requests and responses *)

(** A decoded JSON document, as [json.loads] builds it: [None], [bool],
    [int], [float] (kept as its lexeme), [str], [list] and [dict] (in
    insertion order). *)
#[local] Set Warnings "-register-all".

Inductive JValue : Type :=
| JNull
| JBool (b : bool)
| JInt (n : Z)
| JFloat (lexeme : string)
| JStr (s : string)
| JList (items : list JValue)
| JDict (entries : list (string * JValue)).

(** The empty mapping [{}]. *)
Definition empty_mapping : JValue := JDict [].

Definition is_mapping (v : JValue) : bool :=
  match v with JDict _ => true | _ => false end.

(** What [response.json()] does: it hands back the decoded document or
    raises a decode error, which is a [ValueError]. *)
Inductive Decoding : Type :=
| Decoded (v : JValue)
| Undecodable (msg : string).

(** The part of [requests.Response] the client looks at: the status, the
    body as text, and what [response.json()] makes of that body. *)
Record Response : Type := mkResponse {
  status_code : Z;
  text : string;
  json : Decoding
}.

Inductive Verb : Type := GET | POST | PUT | DELETE.

(** What the session hands to the transport for one call. *)
Record Request : Type := mkRequest {
  req_verb : Verb;
  req_url : string;
  req_headers : gmap string string;
  req_params : option (list (string * JValue));
  req_json : option (list (string * JValue))
}.

(** The transport either comes back with a response or fails before there
    is one (connection refused, timeout, ...). *)
Inductive TransportReply : Type :=
| Reply (r : Response)
| NoReply (reason : string).

Inductive Exn : Type :=
| ValueError (msg : string)
| HTTPError (response : Response)
| JSONDecodeError (msg : string)
| RequestException (reason : string).

Inductive Outcome (A : Type) : Type :=
| Return (a : A)
| Raise (e : Exn).
Arguments Return {A} a.
Arguments Raise {A} e.

(** [Response.raise_for_status] of the [requests] library: an [HTTPError]
    holding the response when [400 <= status_code < 500] (client error) or
    [500 <= status_code < 600] (server error), nothing otherwise. *)
Definition raise_for_status (r : Response) : option Exn :=
  if (400 <=? status_code r) && (status_code r <? 500) then Some (HTTPError r)
  else if (500 <=? status_code r) && (status_code r <? 600) then Some (HTTPError r)
  else None.

(** ** Collaborators *)

(** The token provider: its one operation returns the current token and
    may change the provider on the way (an internal refresh). *)
Class TokenManager (TM : Type) : Type := {
  get_access_token : TM -> string * TM
}.

(** The HTTP transport under [requests.Session]: the headers a fresh
    session starts with, and one round trip. *)
Class Transport (Net : Type) : Type := {
  default_headers : gmap string string;
  send : Net -> Request -> TransportReply * Net
}.

(** The client keeps a reference to the provider; the provider itself is
    the one held by the world. *)
Inductive ManagerRef : Type := TheManager.

Inductive Event : Type :=
| TokenFetched (token : string)
| Exchange (req : Request) (reply : TransportReply).

Record World (TM Net : Type) : Type := mkWorld {
  manager : TM;
  network : Net;
  trace : list Event
}.
Arguments mkWorld {TM Net} _ _ _.
Arguments manager {TM Net} _.
Arguments network {TM Net} _.
Arguments trace {TM Net} _.

(** ** The client *)

Record Session : Type := mkSession {
  headers : gmap string string
}.

Record Client : Type := mkClient {
  base_url : string;
  token_manager : option ManagerRef;
  session : Session
}.

(** One call of a verb operation with its arguments. *)
Inductive Call : Type :=
| CallGet (endpoint : string) (params : option (list (string * JValue)))
| CallPost (endpoint : string) (data params : option (list (string * JValue)))
| CallPut (endpoint : string) (data params : option (list (string * JValue)))
| CallDelete (endpoint : string) (params : option (list (string * JValue))).

Definition call_verb (k : Call) : Verb :=
  match k with
  | CallGet _ _ => GET
  | CallPost _ _ _ => POST
  | CallPut _ _ _ => PUT
  | CallDelete _ _ => DELETE
  end.

Definition call_endpoint (k : Call) : string :=
  match k with
  | CallGet e _ | CallPost e _ _ | CallPut e _ _ | CallDelete e _ => e
  end.

Definition is_get (k : Call) : bool :=
  match k with CallGet _ _ => true | _ => false end.

(** The requests and the token fetches recorded in a trace. *)
Definition requests_of (evs : list Event) : list Request :=
  flat_map (fun ev => match ev with Exchange req _ => [req] | _ => [] end) evs.

Definition fetches_of (evs : list Event) : list string :=
  flat_map (fun ev => match ev with TokenFetched t => [t] | _ => [] end) evs.

Definition authorization (req : Request) : option string :=
  req_headers req !! "Authorization"%string.

Module CentralAPIClient.
Section Methods.
Context {TM Net : Type} `{!TokenManager TM} `{!Transport Net}.

#[local] Abbreviation World := (World TM Net).

(** [token_manager.get_access_token()] on the world's provider. *)
Definition fetch_token (w : World) : string * World :=
  let '(tok, tm') := get_access_token (manager w) in
  (tok, mkWorld tm' (network w) (trace w ++ [TokenFetched tok])).

(** [self.session.<verb>(url, json=data, params=params)]: the session's
    current headers go out with the request. *)
Definition session_request (v : Verb) (url : string)
    (data params : option (list (string * JValue)))
    (self : Client) (w : World) : TransportReply * World :=
  let req := mkRequest v url (headers (session self)) params data in
  let '(reply, net') := send (network w) req in
  (reply, mkWorld (manager w) net' (trace w ++ [Exchange req reply])).

Definition _update_token (access_token : string) (self : Client) : Client :=
  mkClient (base_url self) (token_manager self)
    (mkSession (<["Authorization"%string := ("Bearer " +:+ access_token)%string]>
                  (headers (session self)))).

Definition _ensure_valid_token (self : Client) (w : World) : Client * World :=
  match token_manager self with
  | Some _ =>
      let '(access_token, w') := fetch_token w in
      (_update_token access_token self, w')
  | None => (self, w)
  end.

Definition __init__ (base_url : string) (access_token : option string)
    (token_manager : option ManagerRef) (w : World) : Outcome Client * World :=
  let self :=
    mkClient (PyStr.rstrip "/" base_url) token_manager
      (mkSession (<["Content-Type"%string := "application/json"%string]> default_headers)) in
  match token_manager with
  | Some _ =>
      let '(access_token, w') := fetch_token w in
      (Return (_update_token access_token self), w')
  | None =>
      match access_token with
      | Some tok =>
          if PyStr.truthy tok then (Return (_update_token tok self), w)
          else (Raise (ValueError "Either access_token or token_manager must be provided"), w)
      | None =>
          (Raise (ValueError "Either access_token or token_manager must be provided"), w)
      end
  end.

Definition get (endpoint : string) (params : option (list (string * JValue)))
    (self : Client) (w : World) : Outcome JValue * Client * World :=
  let '(self, w) := _ensure_valid_token self w in
  let url := (base_url self +:+ endpoint)%string in
  match session_request GET url None params self w with
  | (NoReply reason, w) => (Raise (RequestException reason), self, w)
  | (Reply response, w) =>
      match raise_for_status response with
      | Some e => (Raise e, self, w)
      | None =>
          if negb (PyStr.truthy (text response))
             || String.eqb (PyStr.strip (text response)) EmptyString
          then (Return empty_mapping, self, w)
          else
            match json response with
            | Decoded JNull => (Return empty_mapping, self, w)
            | Decoded json_data => (Return json_data, self, w)
            | Undecodable _ => (Return empty_mapping, self, w)
            end
      end
  end.

Definition post (endpoint : string) (data params : option (list (string * JValue)))
    (self : Client) (w : World) : Outcome JValue * Client * World :=
  let '(self, w) := _ensure_valid_token self w in
  let url := (base_url self +:+ endpoint)%string in
  match session_request POST url data params self w with
  | (NoReply reason, w) => (Raise (RequestException reason), self, w)
  | (Reply response, w) =>
      match raise_for_status response with
      | Some e => (Raise e, self, w)
      | None =>
          match json response with
          | Decoded v => (Return v, self, w)
          | Undecodable msg => (Raise (JSONDecodeError msg), self, w)
          end
      end
  end.

Definition put (endpoint : string) (data params : option (list (string * JValue)))
    (self : Client) (w : World) : Outcome JValue * Client * World :=
  let '(self, w) := _ensure_valid_token self w in
  let url := (base_url self +:+ endpoint)%string in
  match session_request PUT url data params self w with
  | (NoReply reason, w) => (Raise (RequestException reason), self, w)
  | (Reply response, w) =>
      match raise_for_status response with
      | Some e => (Raise e, self, w)
      | None =>
          match json response with
          | Decoded v => (Return v, self, w)
          | Undecodable msg => (Raise (JSONDecodeError msg), self, w)
          end
      end
  end.

Definition delete (endpoint : string) (params : option (list (string * JValue)))
    (self : Client) (w : World) : Outcome JValue * Client * World :=
  let '(self, w) := _ensure_valid_token self w in
  let url := (base_url self +:+ endpoint)%string in
  match session_request DELETE url None params self w with
  | (NoReply reason, w) => (Raise (RequestException reason), self, w)
  | (Reply response, w) =>
      match raise_for_status response with
      | Some e => (Raise e, self, w)
      | None =>
          match json response with
          | Decoded v => (Return v, self, w)
          | Undecodable msg => (Raise (JSONDecodeError msg), self, w)
          end
      end
  end.

(** A caller making one call. *)
Definition perform (k : Call) (self : Client) (w : World)
    : Outcome JValue * Client * World :=
  match k with
  | CallGet e p => get e p self w
  | CallPost e d p => post e d p self w
  | CallPut e d p => put e d p self w
  | CallDelete e p => delete e p self w
  end.

(** A caller making calls one after the other on the same client; an
    exception of one call is caught and the next call is made. *)
Fixpoint run (ks : list Call) (self : Client) (w : World)
    : list (Outcome JValue) * Client * World :=
  match ks with
  | [] => ([], self, w)
  | k :: ks' =>
      let '(res, self1, w1) := perform k self w in
      let '(rs, self2, w2) := run ks' self1 w1 in
      (res :: rs, self2, w2)
  end.

End Methods.
End CentralAPIClient.

(** The outcome of a call as a function of what the transport came back
    with: the four verbs differ only in how a body is read. *)
Definition outcome_of_reply (k : Call) (reply : TransportReply) : Outcome JValue :=
  match reply with
  | NoReply reason => Raise (RequestException reason)
  | Reply r =>
      match raise_for_status r with
      | Some e => Raise e
      | None =>
          match json r with
          | Decoded v =>
              if is_get k
              then if negb (PyStr.truthy (text r)) || String.eqb (PyStr.strip (text r)) EmptyString
                   then Return empty_mapping
                   else match v with JNull => Return empty_mapping | _ => Return v end
              else Return v
          | Undecodable msg =>
              if is_get k then Return empty_mapping else Raise (JSONDecodeError msg)
          end
      end
  end.

Definition call_params (k : Call) : option (list (string * JValue)) :=
  match k with
  | CallGet _ p | CallPost _ _ p | CallPut _ _ p | CallDelete _ p => p
  end.

Definition call_data (k : Call) : option (list (string * JValue)) :=
  match k with
  | CallGet _ _ | CallDelete _ _ => None
  | CallPost _ d _ | CallPut _ d _ => d
  end.

(** ** Test doubles: a scripted provider and a canned transport *)

Module Scripted.

(** A provider that hands out [current] and then moves on to the next
    token of its script, staying on the last one. *)
Record Manager : Type := mkManager {
  current : string;
  upcoming : list string
}.

#[export] Instance manager_provider : TokenManager Manager := {|
  get_access_token m :=
    (current m,
     match upcoming m with
     | [] => m
     | t :: ts => mkManager t ts
     end)
|}.

(** A transport that answers with its canned responses in turn and refuses
    the connection once they are used up. *)
Definition Network : Type := list Response.

#[export] Instance network_transport : Transport Network := {|
  default_headers := {[ "Accept"%string := "*/*"%string ]};
  send n _ :=
    match n with
    | r :: rest => (Reply r, rest)
    | [] => (NoReply "connection refused", [])
    end
|}.

Definition world (tokens : Manager) (responses : Network) : World Manager Network :=
  mkWorld tokens responses [].

Definition rotating : Manager := mkManager "t1" ["t2"; "t3"].

Definition static_client : Client :=
  mkClient "https://central.example"%string None
    (mkSession (<["Authorization"%string := "Bearer s3cret"%string]>
                  (<["Content-Type"%string := "application/json"%string]> default_headers))).

Definition managed_client : Client :=
  mkClient "https://central.example"%string (Some TheManager)
    (mkSession (<["Authorization"%string := "Bearer t0"%string]>
                  (<["Content-Type"%string := "application/json"%string]> default_headers))).

Definition not_json : Response := mkResponse 200 "not json" (Undecodable "Expecting value").
Definition empty_body : Response := mkResponse 200 EmptyString (Undecodable "Expecting value").
Definition null_body : Response := mkResponse 200 "null" (Decoded JNull).
Definition list_body : Response := mkResponse 200 "[]" (Decoded (JList [])).
Definition dquote : string := String (ascii_of_nat 34) EmptyString.
Definition object_body : Response :=
  mkResponse 200 ("{" +:+ dquote +:+ "count" +:+ dquote +:+ ": 2}")%string
    (Decoded (JDict [("count"%string, JInt 2)])).
Definition not_found : Response := mkResponse 404 "{}" (Decoded (JDict [])).
Definition odd_status : Response := mkResponse 600 "{}" (Decoded (JDict [])).

End Scripted.

(** The bodies GET does not read a value from: an empty or blank text, a
    text that does not decode, a text that decodes to null. *)
Definition degenerate_body (r : Response) : Prop :=
  text r = EmptyString
  \/ PyStr.strip (text r) = EmptyString
  \/ (exists msg, json r = Undecodable msg)
  \/ json r = Decoded JNull.

(** ** More observations on a run *)

(** The tokens a provider hands out over [n] calls in a row. *)
Fixpoint successive_tokens {TM : Type} `{!TokenManager TM} (n : nat) (tm : TM)
    : list string :=
  match n with
  | O => []
  | S n' => (get_access_token tm).1 :: successive_tokens n' (get_access_token tm).2
  end.

(** The provider after [n] calls. *)
Fixpoint manager_after {TM : Type} `{!TokenManager TM} (n : nat) (tm : TM) : TM :=
  match n with
  | O => tm
  | S n' => manager_after n' (get_access_token tm).2
  end.

(** ** Python values in the scripts and in the configuration loader *)

(** The exceptions the scripts and the loader can end in. *)
Inductive PyError : Type :=
| AttributeError (what : string)
| TypeError (what : string)
| YAMLError (msg : string)
| OSError (msg : string).

Inductive Attempt (A : Type) : Type :=
| Done (a : A)
| Failed (e : PyError).
Arguments Done {A} a.
Arguments Failed {A} e.

(** [d.get(key)] on the entries of a dict; a dict has each key once. *)
Fixpoint dict_get (key : string) (entries : list (string * JValue)) : option JValue :=
  match entries with
  | [] => None
  | (k, v) :: rest => if String.eqb k key then Some v else dict_get key rest
  end.

(** [d[key] = v]: the value is replaced where the key stands, a new key
    goes to the end. *)
Fixpoint dict_set (key : string) (v : JValue) (entries : list (string * JValue))
    : list (string * JValue) :=
  match entries with
  | [] => [(key, v)]
  | (k, v0) :: rest =>
      if String.eqb k key then (k, v) :: rest else (k, v0) :: dict_set key v rest
  end.

(** The one-character strings a [for] loop over a [str] goes through. *)
Fixpoint chars (s : string) : list JValue :=
  match s with
  | EmptyString => []
  | String a s' => JStr (String a EmptyString) :: chars s'
  end.

(** What a [for] loop goes through: the items of a list, the keys of a
    dict, the characters of a str; anything else is not iterable. *)
Definition py_iter (v : JValue) : Attempt (list JValue) :=
  match v with
  | JList items => Done items
  | JDict entries => Done (map (fun e => JStr e.1) entries)
  | JStr s => Done (chars s)
  | _ => Failed (TypeError "object is not iterable")
  end.

(** ** [scripts/extract_vlans_from_wlans.py] *)

Module ExtractVlans.
Section WithStr.

(** The builtin [str] on a decoded value. *)
Variable py_str : JValue -> string.

(** The table under construction: VLAN id to the SSIDs that use it, in
    the order the ids were first seen. *)
Definition Table : Type := list (string * list JValue).

(** Lines 44 to 46: open an empty list for a new id, then append. *)
Fixpoint record (vlan_id : string) (ssid : JValue) (tunnel_vlans : Table) : Table :=
  match tunnel_vlans with
  | [] => [(vlan_id, [ssid])]
  | (k, ssids) :: rest =>
      if String.eqb k vlan_id then (k, ssids ++ [ssid]) :: rest
      else (k, ssids) :: record vlan_id ssid rest
  end.

(** The inner loop over one WLAN's VLAN range. *)
Definition record_all (ssid : JValue) (vlan_ranges : list JValue) (tunnel_vlans : Table)
    : Table :=
  fold_left (fun t vlan => record (py_str vlan) ssid t) vlan_ranges tunnel_vlans.

(** The body of the outer loop, for one element of [wlans]. *)
Definition visit (wlan : JValue) (tunnel_vlans : Table) : Attempt Table :=
  match wlan with
  | JDict entries =>
      match default (JStr EmptyString) (dict_get "forward-mode" entries) with
      | JStr forward_mode =>
          if String.eqb forward_mode "FORWARD_MODE_L2" then
            let vlan_ranges := default (JList []) (dict_get "vlan-id-range" entries) in
            let ssid := default (JStr "Unknown") (dict_get "ssid" entries) in
            match py_iter vlan_ranges with
            | Done vlans => Done (record_all ssid vlans tunnel_vlans)
            | Failed e => Failed e
            end
          else Done tunnel_vlans
      | _ => Done tunnel_vlans
      end
  | _ => Failed (AttributeError "get")
  end.

Fixpoint visit_all (wlans : list JValue) (tunnel_vlans : Table) : Attempt Table :=
  match wlans with
  | [] => Done tunnel_vlans
  | wlan :: rest =>
      match visit wlan tunnel_vlans with
      | Done t => visit_all rest t
      | Failed e => Failed e
      end
  end.

Definition extract_tunnel_vlans (wlans : JValue) : Attempt Table :=
  match py_iter wlans with
  | Done items => visit_all items []
  | Failed e => Failed e
  end.

End WithStr.

(** Whether an element of [wlans] is a dict in tunnel mode. *)
Definition is_tunnel (wlan : JValue) : bool :=
  match wlan with
  | JDict entries =>
      match dict_get "forward-mode" entries with
      | Some (JStr forward_mode) => String.eqb forward_mode "FORWARD_MODE_L2"
      | _ => false
      end
  | _ => false
  end.

(** The VLANs a tunnel-mode WLAN lists, and the SSID it goes by. *)
Definition vlans_of (wlan : JValue) : list JValue :=
  match wlan with
  | JDict entries =>
      match py_iter (default (JList []) (dict_get "vlan-id-range" entries)) with
      | Done vlans => vlans
      | Failed _ => []
      end
  | _ => []
  end.

Definition ssid_of (wlan : JValue) : JValue :=
  match wlan with
  | JDict entries => default (JStr "Unknown") (dict_get "ssid" entries)
  | _ => JStr "Unknown"
  end.

(** All the SSID entries of a table, and whether a table lists an SSID
    under a VLAN id. *)
Definition entries_of (t : Table) : list JValue := flat_map snd t.

Definition lists (t : Table) (vlan_id : string) (ssid : JValue) : Prop :=
  exists ssids, (vlan_id, ssids) ∈ t /\ ssid ∈ ssids.

(** The (VLAN id, SSID) pairs of the tunnel-mode WLANs, in the order the
    two loops meet them. *)
Definition tunnel_pairs (py_str : JValue -> string) (wlans : list JValue)
    : list (string * JValue) :=
  flat_map (fun wlan => map (fun vlan => (py_str vlan, ssid_of wlan)) (vlans_of wlan))
    (List.filter is_tunnel wlans).

(** The loops as one pass over the pairs of the tunnel-mode WLANs. *)
Definition record_pairs (pairs : list (string * JValue)) (t : Table) : Table :=
  fold_left (fun t p => record p.1 p.2 t) pairs t.

End ExtractVlans.

(** ** [utils/config.py] *)

(** What stands at [config_path]: no file, a file [yaml.safe_load] has
    read into a document, or a file that could not be opened or parsed.
    The documents are those with string keys and the scalar kinds of
    [JValue]. *)
Inductive ConfigFile : Type :=
| Missing
| Parsed (doc : JValue)
| Broken (e : PyError).

Module Config.
Section WithFloats.

(** Whether the float written as this lexeme is non-zero. *)
Variable float_truthy : string -> bool.

(** The truth value of a document, as [or] tests it. *)
Definition py_truthy (v : JValue) : bool :=
  match v with
  | JNull => false
  | JBool b => b
  | JInt n => negb (n =? 0)
  | JFloat lexeme => float_truthy lexeme
  | JStr s => PyStr.truthy s
  | JList items => match items with [] => false | _ => true end
  | JDict entries => match entries with [] => false | _ => true end
  end.

(** [load_dotenv(override=True)]: the variables of the [.env] file, when
    there is one, replace those of the process. *)
Definition load_dotenv (dotenv : option (gmap string string))
    (environ : gmap string string) : gmap string string :=
  match dotenv with
  | Some vars => vars ∪ environ
  | None => environ
  end.

(** [os.getenv(var, default)]. *)
Definition getenv (environ : gmap string string) (var : string) (fallback : JValue)
    : JValue :=
  match environ !! var with
  | Some s => JStr s
  | None => fallback
  end.

(** [config.get("aruba_central", {}).get(key, fallback)]. *)
Definition setting (config : JValue) (key : string) (fallback : JValue)
    : Attempt JValue :=
  match config with
  | JDict entries =>
      match default (JDict []) (dict_get "aruba_central" entries) with
      | JDict section => Done (default fallback (dict_get key section))
      | _ => Failed (AttributeError "get")
      end
  | _ => Failed (AttributeError "get")
  end.

Definition bind {A B : Type} (a : Attempt A) (f : A -> Attempt B) : Attempt B :=
  match a with
  | Done x => f x
  | Failed e => Failed e
  end.

(** Lines 39 to 56, on the configuration read so far. *)
Definition override (environ : gmap string string) (config : JValue)
    : Attempt (list (string * JValue)) :=
  bind (setting config "base_url"
          (JStr "https://apigw-prod2.central.arubanetworks.com")) (fun base_url =>
  bind (setting config "client_id" (JStr EmptyString)) (fun client_id =>
  bind (setting config "client_secret" (JStr EmptyString)) (fun client_secret =>
  bind (setting config "customer_id" (JStr EmptyString)) (fun customer_id =>
  bind (setting config "access_token" JNull) (fun access_token =>
  bind (setting config "username" JNull) (fun username =>
  bind (setting config "password" JNull) (fun password =>
  match config with
  | JDict entries =>
      Done (dict_set "aruba_central"
              (JDict [("base_url"%string, getenv environ "ARUBA_BASE_URL" base_url);
                      ("client_id"%string, getenv environ "ARUBA_CLIENT_ID" client_id);
                      ("client_secret"%string,
                       getenv environ "ARUBA_CLIENT_SECRET" client_secret);
                      ("customer_id"%string,
                       getenv environ "ARUBA_CUSTOMER_ID" customer_id);
                      ("access_token"%string,
                       getenv environ "ARUBA_ACCESS_TOKEN" access_token);
                      ("username"%string, getenv environ "ARUBA_USERNAME" username);
                      ("password"%string, getenv environ "ARUBA_PASSWORD" password)])
              entries)
  | _ => Failed (TypeError "item assignment")
  end))))))).

Definition load_config (dotenv : option (gmap string string))
    (environ : gmap string string) (config_file : ConfigFile)
    : Attempt (list (string * JValue)) :=
  let environ := load_dotenv dotenv environ in
  match config_file with
  | Missing => override environ (JDict [])
  | Parsed doc => override environ (if py_truthy doc then doc else JDict [])
  | Broken e => Failed e
  end.

End WithFloats.

(** The seven settings: key, environment variable, built-in default. *)
Definition settings : list (string * string * JValue) :=
  [("base_url"%string, "ARUBA_BASE_URL"%string,
    JStr "https://apigw-prod2.central.arubanetworks.com");
   ("client_id"%string, "ARUBA_CLIENT_ID"%string, JStr EmptyString);
   ("client_secret"%string, "ARUBA_CLIENT_SECRET"%string, JStr EmptyString);
   ("customer_id"%string, "ARUBA_CUSTOMER_ID"%string, JStr EmptyString);
   ("access_token"%string, "ARUBA_ACCESS_TOKEN"%string, JNull);
   ("username"%string, "ARUBA_USERNAME"%string, JNull);
   ("password"%string, "ARUBA_PASSWORD"%string, JNull)].

(** The value a key has in the [aruba_central] section of a configuration,
    if the section is there, is a mapping and has the key. *)
Definition section_value (config : list (string * JValue)) (key : string)
    : option JValue :=
  match dict_get "aruba_central" config with
  | Some (JDict section) => dict_get key section
  | _ => None
  end.

(** The top-level entries the file contributes: those of its document
    when it is a mapping, none otherwise. *)
Definition file_entries (config_file : ConfigFile) : list (string * JValue) :=
  match config_file with
  | Parsed (JDict entries) => entries
  | _ => []
  end.

(** Whether the [aruba_central] entry, when there is one, is a mapping. *)
Definition section_ok (config : list (string * JValue)) : bool :=
  match dict_get "aruba_central" config with
  | Some (JDict _) | None => true
  | Some _ => false
  end.

End Config.

(** ** Sample data for the scripts *)

Module Samples.

(** A stand-in for the parameter [py_str] on the samples. It is what
    [str] prints on the kinds VLAN ids come as in the samples: an int in
    decimal, a str as itself, [None], [True] and [False] by name. On a
    float, a list or a dict it is not [str] but a fixed mark; the samples
    hold none of these. *)
Definition str_of (v : JValue) : string :=
  match v with
  | JInt n => pretty n
  | JStr s => s
  | JNull => "None"
  | JBool true => "True"
  | JBool false => "False"
  | JFloat _ | JList _ | JDict _ => "?"
  end.

Definition corp : JValue :=
  JDict [("ssid"%string, JStr "corp");
         ("forward-mode"%string, JStr "FORWARD_MODE_L2");
         ("vlan-id-range"%string, JList [JInt 10; JInt 20])].

Definition guest : JValue :=
  JDict [("ssid"%string, JStr "guest");
         ("forward-mode"%string, JStr "FORWARD_MODE_BRIDGE");
         ("vlan-id-range"%string, JList [JInt 30])].

Definition lab : JValue :=
  JDict [("ssid"%string, JStr "lab");
         ("forward-mode"%string, JStr "FORWARD_MODE_L2");
         ("vlan-id-range"%string, JList [JInt 20])].

(** A stand-in for the parameter [float_truthy] on the samples, which
    hold no float: it is right on the lexeme [0.0] and is not meant for
    the other ways of writing a zero. *)
Definition float_truthy (lexeme : string) : bool := negb (String.eqb lexeme "0.0").

Definition config_doc : JValue :=
  JDict [("aruba_central"%string,
          JDict [("base_url"%string, JStr "https://file.example");
                 ("client_id"%string, JStr "file-id");
                 ("region"%string, JStr "eu")]);
         ("logging"%string, JDict [("level"%string, JStr "debug")])].

Definition process_env : gmap string string :=
  {[ "ARUBA_CLIENT_ID"%string := "env-id"%string;
     "ARUBA_CUSTOMER_ID"%string := EmptyString ]}.

Definition dotenv_vars : gmap string string :=
  {[ "ARUBA_CLIENT_ID"%string := "dotenv-id"%string ]}.

(** What [load_config] returns on the samples. *)
Definition loaded_sample : list (string * JValue) :=
  [("aruba_central"%string,
    JDict [("base_url"%string, JStr "https://file.example");
           ("client_id"%string, JStr "dotenv-id");
           ("client_secret"%string, JStr EmptyString);
           ("customer_id"%string, JStr EmptyString);
           ("access_token"%string, JNull);
           ("username"%string, JNull);
           ("password"%string, JNull)]);
   ("logging"%string, JDict [("level"%string, JStr "debug")])].

End Samples.

(** * Properties *)

Example rstrip_one : PyStr.rstrip "/" "https://h/api/" = "https://h/api"%string.
Proof. reflexivity. Qed.

Example rstrip_many : PyStr.rstrip "/" "https://h//" = "https://h"%string.
Proof. reflexivity. Qed.

Example strip_blank : PyStr.strip "  " = EmptyString.
Proof. reflexivity. Qed.

(** ** Strings *)

Lemma rstrip_decompose ch s :
  exists n, s = (PyStr.rstrip ch s +:+ PyStr.replicate_char n ch)%string.
Proof.
  induction s as [|a s [n IH]]; [by exists O|].
  cbn [PyStr.rstrip].
  destruct (PyStr.rstrip ch s) as [|b r] eqn:Hr.
  - change (s = PyStr.replicate_char n ch) in IH.
    destruct (Ascii.eqb_spec a ch) as [->|_].
    + exists (S n). by rewrite IH at 1.
    + exists n. by rewrite IH at 1.
  - exists n. by rewrite IH at 1.
Qed.

Lemma rstrip_no_trailing ch s : PyStr.ends_with ch (PyStr.rstrip ch s) = false.
Proof.
  induction s as [|a s IH]; [done|].
  cbn [PyStr.rstrip].
  destruct (PyStr.rstrip ch s) as [|b r] eqn:Hr.
  - destruct (Ascii.eqb a ch) eqn:Ha; cbn; [done|by rewrite Ha].
  - exact IH.
Qed.

Lemma bearer_inj t1 t2 :
  ("Bearer " +:+ t1)%string = ("Bearer " +:+ t2)%string -> t1 = t2.
Proof. intros H. repeat (injection H as H). exact H. Qed.

Lemma truthy_false s : PyStr.truthy s = false <-> s = EmptyString.
Proof. by destruct s. Qed.

(** ** Traces *)

Lemma requests_of_app evs1 evs2 :
  requests_of (evs1 ++ evs2) = requests_of evs1 ++ requests_of evs2.
Proof. unfold requests_of. by rewrite flat_map_app. Qed.

Lemma fetches_of_app evs1 evs2 :
  fetches_of (evs1 ++ evs2) = fetches_of evs1 ++ fetches_of evs2.
Proof. unfold fetches_of. by rewrite flat_map_app. Qed.

Lemma requests_of_exchange req reply evs :
  requests_of (Exchange req reply :: evs) = req :: requests_of evs.
Proof. reflexivity. Qed.

Lemma fetches_of_exchange req reply evs :
  fetches_of (Exchange req reply :: evs) = fetches_of evs.
Proof. reflexivity. Qed.

Section ClientFacts.
Context {TM Net : Type} `{!TokenManager TM} `{!Transport Net}.
Import CentralAPIClient.

#[local] Abbreviation World := (World TM Net).

(** ** The token hook *)

Lemma ensure_without_manager (self : Client) (w : World) :
  token_manager self = None -> _ensure_valid_token self w = (self, w).
Proof. unfold _ensure_valid_token. by intros ->. Qed.

Lemma ensure_with_manager (self : Client) (w : World) ref :
  token_manager self = Some ref ->
  _ensure_valid_token self w =
    (_update_token (get_access_token (manager w)).1 self,
     mkWorld (get_access_token (manager w)).2 (network w)
       (trace w ++ [TokenFetched (get_access_token (manager w)).1])).
Proof.
  unfold _ensure_valid_token, fetch_token. intros ->.
  by destruct (get_access_token (manager w)).
Qed.

Lemma ensure_keeps_base_url (self : Client) (w : World) :
  base_url (_ensure_valid_token self w).1 = base_url self.
Proof.
  unfold _ensure_valid_token, fetch_token.
  destruct (token_manager self); [|done].
  by destruct (get_access_token (manager w)).
Qed.

Lemma ensure_keeps_manager (self : Client) (w : World) :
  token_manager (_ensure_valid_token self w).1 = token_manager self.
Proof.
  unfold _ensure_valid_token, fetch_token.
  destruct (token_manager self) eqn:E; [|done].
  by destruct (get_access_token (manager w)).
Qed.

Lemma update_token_header tok (self : Client) :
  headers (session (_update_token tok self)) !! "Authorization"%string
  = Some ("Bearer " +:+ tok)%string.
Proof. cbn [_update_token session headers]. apply lookup_insert_eq. Qed.

(** ** One call, as one round trip *)

(** Every verb refreshes the token, sends exactly one request built from
    the refreshed client, and reads the reply. *)
Lemma perform_spec (k : Call) (self : Client) (w : World) :
  perform k self w =
    let self1 := (_ensure_valid_token self w).1 in
    let w1 := (_ensure_valid_token self w).2 in
    let req := mkRequest (call_verb k) (base_url self1 +:+ call_endpoint k)%string
                 (headers (session self1)) (call_params k) (call_data k) in
    (outcome_of_reply k (send (network w1) req).1, self1,
     mkWorld (manager w1) (send (network w1) req).2
       (trace w1 ++ [Exchange req (send (network w1) req).1])).
Proof.
  destruct k; cbn [perform call_verb call_endpoint call_params call_data];
    unfold get, post, put, delete, session_request, outcome_of_reply;
    destruct (_ensure_valid_token self w) as [self1 w1]; cbn [fst snd is_get];
    match goal with |- context [send ?n ?r] => destruct (send n r) as [[r0|reason] net'] end;
    cbn [fst snd]; try reflexivity;
    destruct (raise_for_status r0); try reflexivity;
    destruct (json r0) as [v|msg]; try reflexivity;
    destruct (negb (PyStr.truthy (text r0)) || String.eqb (PyStr.strip (text r0)) EmptyString);
    try reflexivity; by destruct v.
Qed.

(** The exchange a call leaves at the end of the trace decides its
    outcome and shows the request that went out. *)
Lemma perform_exchange (k : Call) (self self' : Client) (w w' : World) res req reply :
  perform k self w = (res, self', w') ->
  last (trace w') = Some (Exchange req reply) ->
  res = outcome_of_reply k reply
  /\ self' = (_ensure_valid_token self w).1
  /\ req_url req = (base_url self +:+ call_endpoint k)%string
  /\ req_headers req = headers (session self')
  /\ trace w' = trace (_ensure_valid_token self w).2 ++ [Exchange req reply].
Proof.
  rewrite perform_spec. cbv zeta. intros [= <- <- <-].
  cbn [trace]. rewrite last_snoc. intros [= <- <-].
  by rewrite ensure_keeps_base_url.
Qed.

End ClientFacts.

(** ** Status classification *)


Lemma raise_for_status_quiet r :
  status_code r < 400 \/ 600 <= status_code r -> raise_for_status r = None.
Proof.
  intros Hs. unfold raise_for_status.
  destruct (Z.leb_spec 400 (status_code r)), (Z.ltb_spec (status_code r) 500),
    (Z.leb_spec 500 (status_code r)), (Z.ltb_spec (status_code r) 600);
    cbn; first [reflexivity | lia].
Qed.


(** ** Reading the response *)

Section Responses.
Context {TM Net : Type} `{!TokenManager TM} `{!Transport Net}.
Import CentralAPIClient.

(** C1. GET on a success status (below 400) returns the empty mapping, and
    raises nothing, when the body is empty or blank, when the body does not
    decode as JSON, and when it decodes to null. *)
Theorem get_degenerate_body_is_empty_mapping
    endpoint params (self self' : Client) (w w' : World TM Net) res req r :
  get endpoint params self w = (res, self', w') ->
  last (trace w') = Some (Exchange req (Reply r)) ->
  status_code r < 400 ->
  text r = EmptyString \/ PyStr.strip (text r) = EmptyString
    \/ (exists msg, json r = Undecodable msg) \/ json r = Decoded JNull ->
  res = Return empty_mapping.
Proof.
  intros Hget Hlast Hs Hbody.
  destruct (perform_exchange (CallGet endpoint params) _ _ _ _ _ _ _ Hget Hlast)
    as (-> & _).
  unfold outcome_of_reply. rewrite raise_for_status_quiet by (by left).
  cbn [is_get].
  destruct Hbody as [Ht|[Ht|[[msg Hj]|Hj]]].
  - rewrite Ht. cbn. by destruct (json r).
  - rewrite Ht, String.eqb_refl, orb_true_r. by destruct (json r).
  - by rewrite Hj.
  - rewrite Hj. by destruct (_ || _).
Qed.

(** C2. On a status 200 whose body does not decode as JSON, POST, PUT and
    DELETE raise the decode error, while GET raises nothing and returns
    the empty mapping. *)
Theorem decode_error_asymmetry
    (k : Call) (self self' : Client) (w w' : World TM Net) res req r msg :
  perform k self w = (res, self', w') ->
  last (trace w') = Some (Exchange req (Reply r)) ->
  status_code r = 200 ->
  json r = Undecodable msg ->
  res = if is_get k then Return empty_mapping else Raise (JSONDecodeError msg).
Proof.
  intros Hk Hlast Hs Hj.
  destruct (perform_exchange k _ _ _ _ _ _ _ Hk Hlast) as (-> & _).
  unfold outcome_of_reply. rewrite raise_for_status_quiet by (left; lia).
  by rewrite Hj.
Qed.



Lemma blank_test t :
  negb (PyStr.truthy t) || String.eqb (PyStr.strip t) EmptyString = true
  <-> t = EmptyString \/ PyStr.strip t = EmptyString.
Proof.
  rewrite orb_true_iff, negb_true_iff, truthy_false, String.eqb_eq. tauto.
Qed.

Lemma degenerate_body_dec r : degenerate_body r \/ ~ degenerate_body r.
Proof.
  unfold degenerate_body.
  destruct (negb (PyStr.truthy (text r))
            || String.eqb (PyStr.strip (text r)) EmptyString) eqn:Hb.
  - apply blank_test in Hb. tauto.
  - assert (Hnb : ~ (text r = EmptyString \/ PyStr.strip (text r) = EmptyString)).
    { rewrite <- blank_test. congruence. }
    destruct (json r) as [v|msg].
    + destruct v; try (right; intros [?|[?|[[m ?]|?]]]; (tauto || done)).
      tauto.
    + left. right; right; left. by exists msg.
Qed.

(** What GET makes of a response that passes [raise_for_status]. *)
Lemma get_outcome_degenerate (k : Call) r :
  is_get k = true -> raise_for_status r = None -> degenerate_body r ->
  outcome_of_reply k (Reply r) = Return empty_mapping.
Proof.
  intros Hg Hr Hd. unfold outcome_of_reply. rewrite Hr, Hg.
  destruct Hd as [Ht|[Ht|[[msg Hj]|Hj]]].
  - rewrite Ht. cbn. by destruct (json r).
  - rewrite Ht, String.eqb_refl, orb_true_r. by destruct (json r).
  - by rewrite Hj.
  - rewrite Hj. by destruct (_ || _).
Qed.

Lemma get_outcome_decoded (k : Call) r v :
  is_get k = true -> raise_for_status r = None -> ~ degenerate_body r ->
  json r = Decoded v ->
  outcome_of_reply k (Reply r) = Return v.
Proof.
  intros Hg Hr Hd Hj. unfold outcome_of_reply. rewrite Hr, Hg, Hj.
  destruct (negb (PyStr.truthy (text r))
            || String.eqb (PyStr.strip (text r)) EmptyString) eqn:Hb.
  - apply blank_test in Hb. unfold degenerate_body in Hd. tauto.
  - destruct v; try done. unfold degenerate_body in Hd. tauto.
Qed.

(** What POST, PUT and DELETE make of such a response. *)
Lemma other_outcome (k : Call) r :
  is_get k = false -> raise_for_status r = None ->
  outcome_of_reply k (Reply r)
  = match json r with
    | Decoded v => Return v
    | Undecodable msg => Raise (JSONDecodeError msg)
    end.
Proof.
  intros Hg Hr. unfold outcome_of_reply. rewrite Hr, Hg. by destruct (json r).
Qed.

(** C9, as amended. What a verb returns is the decoded body, whatever its
    type, except that GET returns the empty mapping when, and only when,
    the body is blank, undecodable or null. On a success status GET does
    return the empty mapping for such a body and the decoded value for any
    other, and POST, PUT and DELETE return the decoded value; so the result
    is a mapping whenever the body decodes to a JSON object. *)
Theorem success_value_is_decoded_body
    (k : Call) (self self' : Client) (w w' : World TM Net) res req r :
  perform k self w = (res, self', w') ->
  last (trace w') = Some (Exchange req (Reply r)) ->
  (forall v, res = Return v ->
     (is_get k = true /\ degenerate_body r /\ v = empty_mapping)
     \/ ((is_get k = true -> ~ degenerate_body r) /\ json r = Decoded v))
  /\ (forall v entries, res = Return v -> json r = Decoded (JDict entries) ->
        is_mapping v = true)
  /\ (status_code r < 400 ->
        (is_get k = true -> degenerate_body r -> res = Return empty_mapping)
        /\ (forall v, json r = Decoded v -> (is_get k = true -> ~ degenerate_body r) ->
              res = Return v)
        /\ (forall entries, json r = Decoded (JDict entries) ->
              exists v, res = Return v /\ is_mapping v = true)).
Proof.
  intros Hk Hlast.
  destruct (perform_exchange k _ _ _ _ _ _ _ Hk Hlast) as (-> & _).
  assert (Hret : forall v, outcome_of_reply k (Reply r) = Return v ->
            (is_get k = true /\ degenerate_body r /\ v = empty_mapping)
            \/ ((is_get k = true -> ~ degenerate_body r) /\ json r = Decoded v)).
  { intros v Hv. destruct (raise_for_status r) as [e|] eqn:Hr.
    { unfold outcome_of_reply in Hv. by rewrite Hr in Hv. }
    destruct (is_get k) eqn:Hg.
    - destruct (degenerate_body_dec r) as [Hd|Hd].
      + rewrite (get_outcome_degenerate _ _ Hg Hr Hd) in Hv. injection Hv as <-.
        by left.
      + right. split; [done|]. destruct (json r) as [v0|msg] eqn:Hj.
        * rewrite (get_outcome_decoded _ _ _ Hg Hr Hd Hj) in Hv. by injection Hv as <-.
        * exfalso. apply Hd. right; right; left. by exists msg.
    - right. split; [done|]. rewrite (other_outcome _ _ Hg Hr) in Hv.
      destruct (json r); [by injection Hv as <-|done]. }
  split; [exact Hret|]. split.
  - intros v entries Hv Hj. destruct (Hret v Hv) as [(_ & _ & ->)|(_ & Hj')]; [done|].
    rewrite Hj in Hj'. by injection Hj' as <-.
  - intros Hs. assert (Hr : raise_for_status r = None)
      by (apply raise_for_status_quiet; by left).
    split; [|split].
    + intros Hg Hd. by apply get_outcome_degenerate.
    + intros v Hj Hnd. destruct (is_get k) eqn:Hg.
      * apply get_outcome_decoded; auto.
      * by rewrite (other_outcome _ _ Hg Hr), Hj.
    + intros entries Hj. destruct (is_get k) eqn:Hg.
      * destruct (degenerate_body_dec r) as [Hd|Hd].
        -- exists empty_mapping. split; [by apply get_outcome_degenerate|done].
        -- exists (JDict entries). split; [by apply get_outcome_decoded|done].
      * exists (JDict entries). split; [|done].
        by rewrite (other_outcome _ _ Hg Hr), Hj.
Qed.

End Responses.

(** ** Construction *)

Section Construction.
Context {TM Net : Type} `{!TokenManager TM} `{!Transport Net}.
Import CentralAPIClient.

Lemma init_fields base tok tm (w w0 : World TM Net) self :
  __init__ base tok tm w = (Return self, w0) ->
  base_url self = PyStr.rstrip "/" base /\ token_manager self = tm.
Proof.
  unfold __init__, fetch_token. destruct tm as [ref|].
  - destruct (get_access_token (manager w)). by intros [= <- <-].
  - destruct tok as [t|]; [|done]. destruct (PyStr.truthy t); [|done].
    by intros [= <- <-].
Qed.

Lemma init_static base tok (w w0 : World TM Net) self :
  __init__ base (Some tok) None w = (Return self, w0) ->
  headers (session self) !! "Authorization"%string = Some ("Bearer " +:+ tok)%string
  /\ tok <> EmptyString /\ w0 = w.
Proof.
  unfold __init__. destruct tok as [|a t]; [done|]. cbn [PyStr.truthy].
  intros [= <- <-]. by rewrite update_token_header.
Qed.

(** C3, as amended. Construction raises the configuration error, and
    yields no client, exactly when there is no token provider and the
    static token is absent or the empty string; it yields a client exactly
    when there is a provider or a non-empty static token. *)
Theorem init_fails_iff_no_usable_credential base tok tm (w : World TM Net) :
  ((exists msg, (__init__ base tok tm w).1 = Raise (ValueError msg))
     <-> tm = None /\ (tok = None \/ tok = Some EmptyString))
  /\ ((exists self, (__init__ base tok tm w).1 = Return self)
     <-> tm <> None \/ exists t, tok = Some t /\ t <> EmptyString).
Proof.
  unfold __init__, fetch_token.
  destruct tm as [ref|].
  - destruct (get_access_token (manager w)) as [t tm']. cbn [fst].
    split; split.
    + by intros [msg ?].
    + by intros [? _].
    + intros _. by left.
    + intros _. by eexists.
  - destruct tok as [[|a t]|]; cbn [PyStr.truthy fst]; split; split.
    + intros _. split; [done|by right].
    + intros _. by eexists.
    + by intros [self ?].
    + intros [?|(t & [= <-] & ?)]; done.
    + by intros [msg ?].
    + intros [_ [?|?]]; done.
    + intros _. right. by eexists.
    + intros _. by eexists.
    + intros _. split; [done|by left].
    + intros _. by eexists.
    + by intros [self ?].
    + intros [?|(t & ? & ?)]; done.
Qed.

(** C4. With a token provider, construction succeeds after exactly one
    call of the provider's "get access token": the provider has made one
    step, the trace has grown by that one fetch and by no request, and the
    fetched token sits in the Authorization header. *)
Theorem init_with_provider_fetches_once base tok ref (w : World TM Net) :
  exists self w',
    __init__ base tok (Some ref) w = (Return self, w')
    /\ manager w' = (get_access_token (manager w)).2
    /\ network w' = network w
    /\ trace w' = trace w ++ [TokenFetched (get_access_token (manager w)).1]
    /\ fetches_of (trace w') = fetches_of (trace w) ++ [(get_access_token (manager w)).1]
    /\ requests_of (trace w') = requests_of (trace w)
    /\ headers (session self) !! "Authorization"%string
       = Some ("Bearer " +:+ (get_access_token (manager w)).1)%string.
Proof.
  unfold __init__, fetch_token.
  destruct (get_access_token (manager w)) as [t tm']. cbn [fst snd].
  do 2 eexists. split; [reflexivity|]. cbn [manager network trace].
  rewrite fetches_of_app, requests_of_app, update_token_header. cbn.
  by rewrite app_nil_r.
Qed.

(** C10. With both a static token and a provider, construction succeeds
    and the header holds the token fetched from the provider; the static
    token is not used. *)
Theorem init_with_both_prefers_provider base static ref (w : World TM Net) :
  exists self w',
    __init__ base (Some static) (Some ref) w = (Return self, w')
    /\ headers (session self) !! "Authorization"%string
       = Some ("Bearer " +:+ (get_access_token (manager w)).1)%string
    /\ __init__ base (Some static) (Some ref) w = __init__ base None (Some ref) w
    /\ ((get_access_token (manager w)).1 <> static ->
        headers (session self) !! "Authorization"%string
        <> Some ("Bearer " +:+ static)%string).
Proof.
  unfold __init__, fetch_token.
  destruct (get_access_token (manager w)) as [t tm']. cbn [fst snd].
  do 2 eexists. split; [reflexivity|]. rewrite update_token_header.
  split; [done|]. split; [done|].
  intros Hne H. apply Hne, bearer_inj. congruence.
Qed.

End Construction.

(** ** The Authorization header and the request address across calls *)

Section Calls.
Context {TM Net : Type} `{!TokenManager TM} `{!Transport Net}.
Import CentralAPIClient.

(** What one call adds to the trace, with or without a provider. *)
Lemma perform_trace (k : Call) (self self' : Client) (w w' : World TM Net) res :
  perform k self w = (res, self', w') ->
  exists req reply,
    trace w' = trace (_ensure_valid_token self w).2 ++ [Exchange req reply]
    /\ self' = (_ensure_valid_token self w).1
    /\ manager w' = manager (_ensure_valid_token self w).2
    /\ req_verb req = call_verb k
    /\ req_url req = (base_url self +:+ call_endpoint k)%string
    /\ req_headers req = headers (session self').
Proof.
  rewrite perform_spec. cbv zeta. intros [= <- <- <-].
  do 2 eexists. cbn [trace manager req_verb req_url req_headers].
  by rewrite ensure_keeps_base_url.
Qed.

Lemma perform_with_manager (k : Call) (self self' : Client) (w w' : World TM Net) res ref :
  token_manager self = Some ref ->
  perform k self w = (res, self', w') ->
  exists req reply,
    trace w' = trace w ++ [TokenFetched (get_access_token (manager w)).1; Exchange req reply]
    /\ manager w' = (get_access_token (manager w)).2
    /\ token_manager self' = Some ref
    /\ req_verb req = call_verb k
    /\ authorization req = Some ("Bearer " +:+ (get_access_token (manager w)).1)%string
    /\ headers (session self') !! "Authorization"%string = authorization req.
Proof.
  intros Hm Hk.
  destruct (perform_trace _ _ _ _ _ _ Hk) as (req & reply & Ht & -> & Hman & Hv & _ & Hh).
  rewrite (ensure_with_manager _ _ _ Hm) in Ht, Hman, Hh |- *.
  cbn [fst snd trace manager] in *.
  exists req, reply. unfold authorization. rewrite Hh, update_token_header.
  by rewrite <- app_assoc in Ht.
Qed.

Lemma perform_without_manager (k : Call) (self self' : Client) (w w' : World TM Net) res :
  token_manager self = None ->
  perform k self w = (res, self', w') ->
  self' = self
  /\ manager w' = manager w
  /\ exists req reply,
       trace w' = trace w ++ [Exchange req reply]
       /\ req_headers req = headers (session self).
Proof.
  intros Hm Hk.
  destruct (perform_trace _ _ _ _ _ _ Hk) as (req & reply & Ht & -> & Hman & _ & _ & Hh).
  rewrite (ensure_without_manager _ _ Hm) in Ht, Hman, Hh |- *.
  cbn [fst snd] in *. split; [done|]. split; [done|]. by exists req, reply.
Qed.

Lemma run_without_manager (ks : list Call) (self self' : Client) (w w' : World TM Net) rs :
  token_manager self = None ->
  run ks self w = (rs, self', w') ->
  self' = self
  /\ manager w' = manager w
  /\ exists new,
       trace w' = trace w ++ new
       /\ fetches_of new = []
       /\ length (requests_of new) = length ks
       /\ Forall (fun req => req_headers req = headers (session self)) (requests_of new).
Proof.
  intros Hm. revert self' w w' rs.
  induction ks as [|k ks IH]; intros self' w w' rs; cbn [run].
  - intros [= <- <- <-]. do 2 (split; [done|]). exists []. by rewrite app_nil_r.
  - destruct (perform k self w) as [[res self1] w1] eqn:Hk.
    destruct (run ks self1 w1) as [[rs' self2] w2] eqn:Hr.
    intros [= <- <- <-].
    destruct (perform_without_manager _ _ _ _ _ _ Hm Hk)
      as (-> & Hman1 & req & reply & Ht1 & Hh).
    destruct (IH _ _ _ _ Hr) as (-> & Hman2 & new & Ht2 & Hf & Hlen & Hall).
    do 2 (split; [congruence|]).
    exists (Exchange req reply :: new). rewrite Ht2, Ht1, <- app_assoc.
    rewrite requests_of_exchange, fetches_of_exchange.
    split; [done|]. split; [done|]. split; [cbn [length]; by rewrite Hlen|].
    by constructor.
Qed.

Lemma run_addresses (ks : list Call) (self self' : Client) (w w' : World TM Net) rs :
  run ks self w = (rs, self', w') ->
  base_url self' = base_url self
  /\ exists new,
       trace w' = trace w ++ new
       /\ map req_url (requests_of new)
          = map (fun k => (base_url self +:+ call_endpoint k)%string) ks
       /\ map req_verb (requests_of new) = map call_verb ks.
Proof.
  revert self self' w w' rs.
  induction ks as [|k ks IH]; intros self self' w w' rs; cbn [run].
  - intros [= <- <- <-]. split; [done|]. exists []. by rewrite app_nil_r.
  - destruct (perform k self w) as [[res self1] w1] eqn:Hk.
    destruct (run ks self1 w1) as [[rs' self2] w2] eqn:Hr.
    intros [= <- <- <-].
    destruct (perform_trace _ _ _ _ _ _ Hk) as (req & reply & Ht1 & Hs1 & _ & Hv & Hu & _).
    assert (Hb : base_url self1 = base_url self)
      by (rewrite Hs1; apply ensure_keeps_base_url).
    destruct (IH _ _ _ _ _ Hr) as (Hb2 & new & Ht2 & Hurls & Hverbs).
    split; [congruence|].
    assert (Hpre : exists pre, trace (_ensure_valid_token self w).2 = trace w ++ pre
                               /\ requests_of pre = []).
    { unfold _ensure_valid_token, fetch_token. destruct (token_manager self).
      - destruct (get_access_token (manager w)). cbn. by eexists.
      - exists []. by rewrite app_nil_r. }
    destruct Hpre as (pre & Hpre & Hnone).
    exists (pre ++ Exchange req reply :: new).
    rewrite Ht2, Ht1, Hpre, <- !app_assoc. split; [done|].
    rewrite requests_of_app, Hnone, requests_of_exchange. cbn [app map].
    by rewrite Hurls, Hverbs, Hb, Hu, Hv.
Qed.

(** C5. With a token provider configured, every verb call first fetches
    the provider's current token and then sends a request whose
    Authorization header is "Bearer" followed by that token; of two calls
    in a row, each request carries the token fetched for it, so the two
    headers differ when the provider's token has changed in between. *)
Theorem provider_token_refreshed_before_every_request
    (k1 k2 : Call) (self self1 self2 : Client) (w w1 w2 : World TM Net) res1 res2 ref :
  token_manager self = Some ref ->
  perform k1 self w = (res1, self1, w1) ->
  perform k2 self1 w1 = (res2, self2, w2) ->
  exists req1 reply1 req2 reply2,
    trace w1 = trace w ++ [TokenFetched (get_access_token (manager w)).1;
                           Exchange req1 reply1]
    /\ trace w2 = trace w1 ++ [TokenFetched (get_access_token (manager w1)).1;
                               Exchange req2 reply2]
    /\ manager w1 = (get_access_token (manager w)).2
    /\ req_verb req1 = call_verb k1 /\ req_verb req2 = call_verb k2
    /\ authorization req1 = Some ("Bearer " +:+ (get_access_token (manager w)).1)%string
    /\ authorization req2 = Some ("Bearer " +:+ (get_access_token (manager w1)).1)%string
    /\ ((get_access_token (manager w)).1 <> (get_access_token (manager w1)).1 ->
        authorization req1 <> authorization req2).
Proof.
  intros Hm Hk1 Hk2.
  destruct (perform_with_manager _ _ _ _ _ _ _ Hm Hk1)
    as (req1 & reply1 & Ht1 & Hman1 & Hm1 & Hv1 & Ha1 & _).
  destruct (perform_with_manager _ _ _ _ _ _ _ Hm1 Hk2)
    as (req2 & reply2 & Ht2 & _ & _ & Hv2 & Ha2 & _).
  exists req1, reply1, req2, reply2. repeat split; try done.
  rewrite Ha1, Ha2. intros Hne H. apply Hne, bearer_inj. congruence.
Qed.

(** C7. Without a token provider, the Authorization header is "Bearer"
    followed by the static token given at construction, and stays so:
    whatever verb calls are made, in whatever order, the client is left as
    it was, the provider is never asked, and every request sent carries
    that header. *)
Theorem static_token_header_is_stable
    base tok (w w0 : World TM Net) (self : Client)
    (ks : list Call) (w1 w' : World TM Net) (self' : Client) rs :
  __init__ base (Some tok) None w = (Return self, w0) ->
  run ks self w1 = (rs, self', w') ->
  headers (session self) !! "Authorization"%string = Some ("Bearer " +:+ tok)%string
  /\ self' = self
  /\ headers (session self') !! "Authorization"%string = Some ("Bearer " +:+ tok)%string
  /\ exists new,
       trace w' = trace w1 ++ new
       /\ fetches_of new = []
       /\ length (requests_of new) = length ks
       /\ Forall (fun req => authorization req = Some ("Bearer " +:+ tok)%string)
            (requests_of new).
Proof.
  intros Hinit Hrun.
  destruct (init_static _ _ _ _ _ Hinit) as (Hauth & _ & _).
  destruct (init_fields _ _ _ _ _ _ Hinit) as (_ & Hm).
  destruct (run_without_manager _ _ _ _ _ _ Hm Hrun)
    as (-> & _ & new & Ht & Hf & Hlen & Hall).
  repeat split; try done. exists new. repeat split; try done.
  eapply Forall_impl; [exact Hall|]. intros req Hreq.
  unfold authorization. by rewrite Hreq.
Qed.

(** C8. The address of every request is the base address given at
    construction, stripped of its trailing slashes, followed by the
    endpoint as it is: nothing is put between the two and neither is
    rewritten. The stripped base is the given one minus a run of slashes
    at its end, and does not end in a slash. *)
Theorem request_address_is_base_plus_endpoint
    base tok tm (w w0 : World TM Net) (self : Client)
    (ks : list Call) (w1 w' : World TM Net) (self' : Client) rs :
  __init__ base tok tm w = (Return self, w0) ->
  run ks self w1 = (rs, self', w') ->
  (exists new,
     trace w' = trace w1 ++ new
     /\ map req_url (requests_of new)
        = map (fun k => (PyStr.rstrip "/" base +:+ call_endpoint k)%string) ks
     /\ map req_verb (requests_of new) = map call_verb ks)
  /\ base_url self' = PyStr.rstrip "/" base
  /\ (exists n, base = (PyStr.rstrip "/" base +:+ PyStr.replicate_char n "/")%string)
  /\ PyStr.ends_with "/" (PyStr.rstrip "/" base) = false.
Proof.
  intros Hinit Hrun.
  destruct (init_fields _ _ _ _ _ _ Hinit) as (Hb & _).
  destruct (run_addresses _ _ _ _ _ _ Hrun) as (Hb' & new & Ht & Hurls & Hverbs).
  rewrite Hb in Hurls, Hb'.
  split; [by exists new|]. split; [done|].
  split; [apply rstrip_decompose | apply rstrip_no_trailing].
Qed.

End Calls.

(** ** The properties at work on the test doubles *)

Section Concrete.
Import CentralAPIClient Scripted.

(** GET on a 200 whose body is the text "not json". *)
Lemma get_degenerate_body_witness :
  (get "/aps" None static_client (world rotating [not_json])).1.1
  = Return empty_mapping.
Proof.
  eapply (get_degenerate_body_is_empty_mapping "/aps" None static_client _
            (world rotating [not_json]) _ _ _ not_json).
  - reflexivity.
  - reflexivity.
  - reflexivity.
  - right; right; left. by eexists.
Defined.

(** POST on a 200 whose body is the text "not json". *)
Lemma decode_error_asymmetry_witness :
  (perform (CallPost "/wlans" None None) managed_client (world rotating [not_json])).1.1
  = Raise (JSONDecodeError "Expecting value").
Proof.
  eapply (decode_error_asymmetry (CallPost "/wlans" None None) managed_client _
            (world rotating [not_json]) _ _ _ not_json).
  - reflexivity.
  - reflexivity.
  - reflexivity.
  - reflexivity.
Defined.


(** Outside the range of HTTP status codes: a status of 600 is in neither
    range of [raise_for_status], and GET goes on to read the body. *)
Lemma http_error_not_raised_at_600 :
  let out := perform (CallGet "/aps" None) static_client (world rotating [odd_status]) in
  (exists req, last (trace out.2) = Some (Exchange req (Reply odd_status)))
  /\ 400 <= status_code odd_status
  /\ out.1.1 = Return empty_mapping
  /\ ~ (out.1.1 = Raise (HTTPError odd_status) <-> 400 <= status_code odd_status).
Proof.
  cbv zeta. split; [by eexists|]. split; [cbn; lia|]. split; [reflexivity|].
  intros [_ H]. assert (Hs : 400 <= status_code odd_status) by (cbn; lia).
  apply H in Hs. discriminate Hs.
Defined.

(** GET on a 200 with an object for a body returns that object, GET on a
    200 with the text "not json" returns the empty mapping, and POST on a
    200 with an object for a body returns that object. *)
Lemma success_value_is_decoded_body_witness :
  (perform (CallGet "/aps" None) static_client (world rotating [object_body])).1.1
  = Return (JDict [("count"%string, JInt 2)])
  /\ (perform (CallGet "/aps" None) static_client (world rotating [not_json])).1.1
     = Return empty_mapping
  /\ (perform (CallPost "/wlans" None None) managed_client
        (world rotating [object_body])).1.1
     = Return (JDict [("count"%string, JInt 2)]).
Proof.
  assert (Hnd : ~ degenerate_body object_body).
  { intros [H|[H|[[msg H]|H]]]; discriminate H. }
  assert (Hok : status_code object_body < 400) by (cbn; lia).
  assert (Hok' : status_code not_json < 400) by (cbn; lia).
  pose (out1 := perform (CallGet "/aps" None) static_client
                  (world rotating [object_body])).
  pose (out2 := perform (CallGet "/aps" None) static_client (world rotating [not_json])).
  pose (out3 := perform (CallPost "/wlans" None None) managed_client
                  (world rotating [object_body])).
  assert (H1 : perform (CallGet "/aps" None) static_client (world rotating [object_body])
               = (out1.1.1, out1.1.2, out1.2)) by reflexivity.
  assert (L1 : last (trace out1.2)
               = Some (Exchange (mkRequest GET "https://central.example/aps"
                                   (headers (session out1.1.2)) None None)
                         (Reply object_body))) by reflexivity.
  assert (H2 : perform (CallGet "/aps" None) static_client (world rotating [not_json])
               = (out2.1.1, out2.1.2, out2.2)) by reflexivity.
  assert (L2 : last (trace out2.2)
               = Some (Exchange (mkRequest GET "https://central.example/aps"
                                   (headers (session out2.1.2)) None None)
                         (Reply not_json))) by reflexivity.
  assert (H3 : perform (CallPost "/wlans" None None) managed_client
                 (world rotating [object_body])
               = (out3.1.1, out3.1.2, out3.2)) by reflexivity.
  assert (L3 : last (trace out3.2)
               = Some (Exchange (mkRequest POST "https://central.example/wlans"
                                   (headers (session out3.1.2)) None None)
                         (Reply object_body))) by reflexivity.
  split; [|split].
  - destruct (success_value_is_decoded_body _ _ _ _ _ _ _ _ H1 L1) as (_ & _ & Hsucc).
    destruct (Hsucc Hok) as (_ & Hdec & _).
    apply Hdec; [reflexivity|]. intros _. exact Hnd.
  - destruct (success_value_is_decoded_body _ _ _ _ _ _ _ _ H2 L2) as (_ & _ & Hsucc).
    destruct (Hsucc Hok') as (Hdeg & _).
    apply Hdeg; [reflexivity|]. right; right; left. by eexists.
  - destruct (success_value_is_decoded_body _ _ _ _ _ _ _ _ H3 L3) as (_ & _ & Hsucc).
    destruct (Hsucc Hok) as (_ & Hdec & _).
    apply Hdec; [reflexivity|]. intros Hg. discriminate Hg.
Defined.

(** C9 as stated fails: GET on a 200 whose body is a JSON list returns the
    list, and POST on a 200 whose body is null returns null; neither is a
    mapping. *)
Lemma success_value_not_always_mapping :
  (perform (CallGet "/aps" None) static_client (world rotating [list_body])).1.1
  = Return (JList [])
  /\ is_mapping (JList []) = false
  /\ (perform (CallPost "/wlans" None None) static_client (world rotating [null_body])).1.1
     = Return JNull
  /\ is_mapping JNull = false.
Proof. repeat split; reflexivity. Defined.

(** C3 as stated fails: a static token is given, the empty string, there
    is no provider, and construction raises the configuration error. *)
Lemma init_with_empty_static_token_fails :
  is_Some (Some EmptyString)
  /\ (__init__ "https://central.example" (Some EmptyString) None (world rotating [])).1
     = Raise (ValueError "Either access_token or token_manager must be provided").
Proof. split; [by eexists | reflexivity]. Defined.

(** Two calls in a row on a provider that moves from "t1" to "t2". *)
Lemma provider_token_refreshed_witness :
  let out1 := perform (CallGet "/aps" None) managed_client
                (world rotating [object_body; object_body]) in
  let out2 := perform (CallPost "/wlans" None None) out1.1.2 out1.2 in
  map authorization (requests_of (trace out2.2))
  = [Some "Bearer t1"%string; Some "Bearer t2"%string].
Proof.
  intros out1 out2.
  assert (H1 : perform (CallGet "/aps" None) managed_client
                 (world rotating [object_body; object_body])
               = (out1.1.1, out1.1.2, out1.2)) by reflexivity.
  assert (H2 : perform (CallPost "/wlans" None None) out1.1.2 out1.2
               = (out2.1.1, out2.1.2, out2.2)) by reflexivity.
  destruct (provider_token_refreshed_before_every_request
              (CallGet "/aps" None) (CallPost "/wlans" None None)
              managed_client out1.1.2 out2.1.2
              (world rotating [object_body; object_body]) out1.2 out2.2
              out1.1.1 out2.1.1 TheManager eq_refl H1 H2)
    as (req1 & reply1 & req2 & reply2 & Ht1 & Ht2 & _ & _ & _ & Ha1 & Ha2 & _).
  rewrite Ht2, Ht1. cbn [world trace app].
  rewrite ?requests_of_app. cbn [requests_of flat_map app map].
  rewrite Ha1, Ha2. reflexivity.
Defined.

(** A client built on the static token "s3cret", then three calls. *)
Lemma static_token_header_witness :
  let ks := [CallGet "/aps" None; CallDelete "/wlans/guest" None;
             CallPut "/wlans/corp" None None] in
  let out := run ks static_client (world rotating [object_body; not_found]) in
  headers (session out.1.2) !! "Authorization"%string = Some "Bearer s3cret"%string.
Proof.
  cbv zeta.
  eapply (static_token_header_is_stable "https://central.example/" "s3cret"
            (world rotating []) (world rotating []) static_client
            [CallGet "/aps" None; CallDelete "/wlans/guest" None;
             CallPut "/wlans/corp" None None]
            (world rotating [object_body; not_found])).
  - reflexivity.
  - reflexivity.
Defined.

(** A base address with two trailing slashes, then two calls. *)
Lemma request_address_witness :
  let ks := [CallGet "/aps" None; CallPost "wlans" None None] in
  let out := run ks static_client (world rotating [object_body]) in
  map req_url (requests_of (trace out.2))
  = ["https://central.example/aps"%string; "https://central.examplewlans"%string].
Proof.
  intros ks out.
  assert (Hinit : __init__ "https://central.example//" (Some "s3cret"%string) None
                    (world rotating [])
                  = (Return static_client, world rotating [])) by reflexivity.
  assert (Hrun : run ks static_client (world rotating [object_body])
                 = (out.1.1, out.1.2, out.2)) by reflexivity.
  destruct (request_address_is_base_plus_endpoint "https://central.example//"
              (Some "s3cret"%string) None (world rotating []) (world rotating [])
              static_client ks
              (world rotating [object_body]) out.2 out.1.2 out.1.1 Hinit Hrun)
    as ((new & Ht & Hurls & _) & _).
  rewrite Ht. cbn [world trace app]. exact Hurls.
Defined.

End Concrete.

(** * Further properties of the client *)

Lemma rstrip_unchanged ch s : PyStr.ends_with ch s = false -> PyStr.rstrip ch s = s.
Proof.
  induction s as [|a s IH]; [done|].
  cbn [PyStr.rstrip]. destruct s as [|b s'].
  - cbn. by intros ->.
  - intros He. change (PyStr.ends_with ch (String b s') = false) in He.
    by rewrite (IH He).
Qed.

Lemma strip_empty : PyStr.strip EmptyString = EmptyString.
Proof. reflexivity. Qed.

Section MoreClientFacts.
Context {TM Net : Type} `{!TokenManager TM} `{!Transport Net}.
Import CentralAPIClient.

(** The request a call sends, field by field. *)
Lemma perform_request (k : Call) (self self' : Client) (w w' : World TM Net) res req reply :
  perform k self w = (res, self', w') ->
  last (trace w') = Some (Exchange req reply) ->
  req = mkRequest (call_verb k) (base_url self +:+ call_endpoint k)%string
          (headers (session self')) (call_params k) (call_data k)
  /\ res = outcome_of_reply k reply.
Proof.
  rewrite perform_spec. cbv zeta. intros [= <- <- <-].
  cbn [trace]. rewrite last_snoc. intros [= <- <-].
  by rewrite ensure_keeps_base_url.
Qed.

Lemma update_token_twice t1 t2 (self : Client) :
  _update_token t2 (_update_token t1 self) = _update_token t2 self.
Proof.
  unfold _update_token. cbn [base_url token_manager session headers].
  by rewrite insert_insert_eq.
Qed.

Lemma update_token_other tok (self : Client) key :
  key <> "Authorization"%string ->
  headers (session (_update_token tok self)) !! key = headers (session self) !! key.
Proof. intros Hk. cbn [_update_token session headers]. by rewrite lookup_insert_ne. Qed.

(** What a call leaves alone in the client. *)
Lemma perform_frame (k : Call) (self self' : Client) (w w' : World TM Net) res :
  perform k self w = (res, self', w') ->
  base_url self' = base_url self
  /\ token_manager self' = token_manager self
  /\ (forall key, key <> "Authorization"%string ->
        headers (session self') !! key = headers (session self) !! key)
  /\ exists pre req reply,
       trace w' = trace w ++ pre ++ [Exchange req reply]
       /\ requests_of pre = []
       /\ req_headers req = headers (session self')
       /\ req_verb req = call_verb k.
Proof.
  rewrite perform_spec. cbv zeta. intros [= <- <- <-].
  rewrite ensure_keeps_base_url, ensure_keeps_manager. do 2 (split; [done|]).
  unfold _ensure_valid_token, fetch_token.
  destruct (token_manager self) as [ref|].
  - destruct (get_access_token (manager w)) as [t tm']. cbn [fst snd trace].
    split; [intros key Hk; by apply update_token_other|].
    eexists [TokenFetched t], _, _. rewrite <- app_assoc. by repeat split.
  - cbn [fst snd]. split; [done|]. by eexists [], _, _.
Qed.

Lemma run_frame (ks : list Call) (self self' : Client) (w w' : World TM Net) rs :
  run ks self w = (rs, self', w') ->
  base_url self' = base_url self
  /\ token_manager self' = token_manager self
  /\ (forall key, key <> "Authorization"%string ->
        headers (session self') !! key = headers (session self) !! key)
  /\ length rs = length ks
  /\ exists new,
       trace w' = trace w ++ new
       /\ map req_verb (requests_of new) = map call_verb ks
       /\ Forall (fun req => forall key, key <> "Authorization"%string ->
                   req_headers req !! key = headers (session self) !! key)
            (requests_of new).
Proof.
  revert self self' w w' rs.
  induction ks as [|k ks IH]; intros self self' w w' rs; cbn [run].
  - intros [= <- <- <-]. repeat split; try done. exists []. by rewrite app_nil_r.
  - destruct (perform k self w) as [[res self1] w1] eqn:Hk.
    destruct (run ks self1 w1) as [[rs' self2] w2] eqn:Hr.
    intros [= <- <- <-].
    destruct (perform_frame _ _ _ _ _ _ Hk)
      as (Hb1 & Hm1 & Hh1 & pre & req & reply & Ht1 & Hpre & Hreq & Hv).
    destruct (IH _ _ _ _ _ Hr) as (Hb2 & Hm2 & Hh2 & Hlen & new & Ht2 & Hverbs & Hall).
    split; [congruence|]. split; [congruence|].
    split; [intros key Hkey; by rewrite Hh2, Hh1|].
    split; [cbn [length]; by rewrite Hlen|].
    exists (pre ++ Exchange req reply :: new).
    rewrite Ht2, Ht1, <- !app_assoc. split; [done|].
    rewrite requests_of_app, Hpre, requests_of_exchange. cbn [app map].
    split; [by rewrite Hv, Hverbs|].
    constructor.
    + intros key Hkey. by rewrite Hreq, Hh1.
    + eapply Forall_impl; [exact Hall|]. intros r Hr' key Hkey.
      by rewrite Hr', Hh1.
Qed.

(** X1. The transport is handed the verb of the operation, the caller's
    query parameters as they are and, for POST and PUT, the caller's body
    as it is; GET and DELETE send no body. *)
Theorem arguments_forwarded_unmodified
    (k : Call) (self self' : Client) (w w' : World TM Net) res req reply :
  perform k self w = (res, self', w') ->
  last (trace w') = Some (Exchange req reply) ->
  match k with
  | CallGet _ params => req_verb req = GET /\ req_params req = params /\ req_json req = None
  | CallPost _ data params =>
      req_verb req = POST /\ req_params req = params /\ req_json req = data
  | CallPut _ data params =>
      req_verb req = PUT /\ req_params req = params /\ req_json req = data
  | CallDelete _ params =>
      req_verb req = DELETE /\ req_params req = params /\ req_json req = None
  end.
Proof.
  intros Hk Hlast.
  destruct (perform_request _ _ _ _ _ _ _ _ Hk Hlast) as (-> & _).
  by destruct k.
Qed.

(** X2. A sequence of calls makes one request per call, in the order of
    the calls and with their verbs, and yields one outcome per call: a
    call that failed is not sent again. *)
Theorem one_request_per_call
    (ks : list Call) (self self' : Client) (w w' : World TM Net) rs :
  run ks self w = (rs, self', w') ->
  length rs = length ks
  /\ exists new,
       trace w' = trace w ++ new
       /\ length (requests_of new) = length ks
       /\ map req_verb (requests_of new) = map call_verb ks.
Proof.
  intros Hrun.
  destruct (run_frame _ _ _ _ _ _ Hrun) as (_ & _ & _ & Hlen & new & Ht & Hv & _).
  split; [done|]. exists new. split; [done|]. split; [|done].
  by rewrite <- (length_map req_verb), Hv, length_map.
Qed.

(** X3. When the transport fails before there is a response, every verb,
    GET included, raises that failure: the leniency of GET is for bodies
    only. *)
Theorem transport_failure_propagates
    (k : Call) (self self' : Client) (w w' : World TM Net) res req reason :
  perform k self w = (res, self', w') ->
  last (trace w') = Some (Exchange req (NoReply reason)) ->
  res = Raise (RequestException reason).
Proof.
  intros Hk Hlast.
  by destruct (perform_request _ _ _ _ _ _ _ _ Hk Hlast) as (_ & ->).
Qed.

(** X4. After construction the session carries the header
    Content-Type: application/json, no call removes or changes it, and
    every request is sent with it. *)
Theorem content_type_always_json
    base tok tm (w w0 : World TM Net) (self : Client)
    (ks : list Call) (w1 w' : World TM Net) (self' : Client) rs :
  __init__ base tok tm w = (Return self, w0) ->
  run ks self w1 = (rs, self', w') ->
  headers (session self') !! "Content-Type"%string = Some "application/json"%string
  /\ exists new,
       trace w' = trace w1 ++ new
       /\ Forall (fun req => req_headers req !! "Content-Type"%string
                             = Some "application/json"%string)
            (requests_of new).
Proof.
  intros Hinit Hrun.
  assert (Hct : headers (session self) !! "Content-Type"%string
                = Some "application/json"%string).
  { revert Hinit. unfold __init__, fetch_token. destruct tm as [ref|].
    - destruct (get_access_token (manager w)). intros [= <- <-].
      rewrite update_token_other by done. apply lookup_insert_eq.
    - destruct tok as [t|]; [|done]. destruct (PyStr.truthy t); [|done].
      intros [= <- <-]. rewrite update_token_other by done. apply lookup_insert_eq. }
  destruct (run_frame _ _ _ _ _ _ Hrun) as (_ & _ & Hh & _ & new & Ht & _ & Hall).
  split; [by rewrite Hh|]. exists new. split; [done|].
  eapply Forall_impl; [exact Hall|]. intros req Hreq. by rewrite Hreq.
Qed.

(** X5. Calls change nothing of the client but the Authorization header:
    after any sequence of calls the base address, the provider reference
    and every other header are as before. *)
Theorem calls_only_touch_authorization
    (ks : list Call) (self self' : Client) (w w' : World TM Net) rs :
  run ks self w = (rs, self', w') ->
  base_url self' = base_url self
  /\ token_manager self' = token_manager self
  /\ forall key, key <> "Authorization"%string ->
       headers (session self') !! key = headers (session self) !! key.
Proof.
  intros Hrun.
  by destruct (run_frame _ _ _ _ _ _ Hrun) as (? & ? & ? & _).
Qed.

End MoreClientFacts.

Section ProviderRuns.
Context {TM Net : Type} `{!TokenManager TM} `{!Transport Net}.
Import CentralAPIClient.

Lemma run_with_manager (ks : list Call) (self self' : Client) (w w' : World TM Net) rs ref :
  token_manager self = Some ref ->
  run ks self w = (rs, self', w') ->
  manager w' = manager_after (length ks) (manager w)
  /\ headers (session self') !! "Authorization"%string
     = match last (successive_tokens (length ks) (manager w)) with
       | Some t => Some ("Bearer " +:+ t)%string
       | None => headers (session self) !! "Authorization"%string
       end
  /\ exists new,
       trace w' = trace w ++ new
       /\ fetches_of new = successive_tokens (length ks) (manager w)
       /\ map authorization (requests_of new)
          = map (fun t => Some ("Bearer " +:+ t)%string) (fetches_of new).
Proof.
  revert self self' w w' rs.
  induction ks as [|k ks IH]; intros self self' w w' rs Hm; cbn [run].
  - intros [= <- <- <-]. repeat split; try done. exists []. by rewrite app_nil_r.
  - destruct (perform k self w) as [[res self1] w1] eqn:Hk.
    destruct (run ks self1 w1) as [[rs' self2] w2] eqn:Hr.
    intros [= <- <- <-].
    destruct (perform_with_manager _ _ _ _ _ _ _ Hm Hk)
      as (req & reply & Ht1 & Hman1 & Hm1 & _ & Ha & Hh1).
    destruct (IH _ _ _ _ _ Hm1 Hr) as (Hman2 & Hh2 & new & Ht2 & Hf & Hauth).
    cbn [length successive_tokens manager_after]. rewrite <- Hman1.
    split; [done|]. split.
    + rewrite Hh2. destruct (successive_tokens (length ks) (manager w1)) as [|t ts] eqn:Hs.
      * cbn. by rewrite Hh1, Ha.
      * rewrite last_cons_cons, last_cons. by destruct (last ts).
    + exists (TokenFetched (get_access_token (manager w)).1 :: Exchange req reply :: new).
      rewrite Ht2, Ht1, <- app_assoc. split; [done|].
      change (fetches_of (TokenFetched (get_access_token (manager w)).1
                            :: Exchange req reply :: new))
        with ((get_access_token (manager w)).1 :: fetches_of new).
      change (requests_of (TokenFetched (get_access_token (manager w)).1
                             :: Exchange req reply :: new))
        with (req :: requests_of new).
      rewrite Hf. split; [done|]. cbn [map]. by rewrite Ha, Hauth, Hf.
Qed.

(** X6. With a provider configured, a sequence of n calls asks the
    provider exactly n times, in step with the calls; the i-th request
    carries "Bearer" followed by the i-th token handed out, and the client
    is left holding the last one. *)
Theorem every_request_carries_its_own_token
    (ks : list Call) (self self' : Client) (w w' : World TM Net) rs ref :
  token_manager self = Some ref ->
  run ks self w = (rs, self', w') ->
  manager w' = manager_after (length ks) (manager w)
  /\ (exists new,
        trace w' = trace w ++ new
        /\ fetches_of new = successive_tokens (length ks) (manager w)
        /\ map authorization (requests_of new)
           = map (fun t => Some ("Bearer " +:+ t)%string)
               (successive_tokens (length ks) (manager w)))
  /\ (forall t, last (successive_tokens (length ks) (manager w)) = Some t ->
        headers (session self') !! "Authorization"%string = Some ("Bearer " +:+ t)%string).
Proof.
  intros Hm Hrun.
  destruct (run_with_manager _ _ _ _ _ _ _ Hm Hrun) as (Hman & Hh & new & Ht & Hf & Ha).
  split; [done|]. split.
  - exists new. by rewrite <- Hf.
  - intros t Hl. by rewrite Hh, Hl.
Qed.

(** X7. Construction never uses the transport, and when it raises the
    configuration error, or when no provider is given, it leaves the world
    as it found it: nothing was fetched and nothing was sent. *)
Theorem construction_is_offline base tok tm (w : World TM Net) :
  network (__init__ base tok tm w).2 = network w
  /\ requests_of (trace (__init__ base tok tm w).2) = requests_of (trace w)
  /\ (tm = None -> (__init__ base tok tm w).2 = w)
  /\ (forall e, (__init__ base tok tm w).1 = Raise e -> (__init__ base tok tm w).2 = w).
Proof.
  unfold __init__, fetch_token. destruct tm as [ref|].
  - destruct (get_access_token (manager w)) as [t tm']. cbn [fst snd network trace].
    rewrite requests_of_app. cbn. rewrite app_nil_r. by repeat split.
  - destruct tok as [t|]; [destruct (PyStr.truthy t)|]; by repeat split.
Qed.

(** X8. With a provider configured, the token the client held before a
    call has no effect on the call: the outcome, the request sent and the
    client afterwards are the same whatever token had been installed. *)
Theorem stale_token_is_never_used
    (k : Call) (self : Client) (w : World TM Net) ref stale :
  token_manager self = Some ref ->
  perform k (_update_token stale self) w = perform k self w.
Proof.
  intros Hm. rewrite !perform_spec. cbv zeta.
  assert (He : _ensure_valid_token (_update_token stale self) w
               = _ensure_valid_token self w).
  { rewrite (ensure_with_manager self w ref Hm).
    rewrite (ensure_with_manager (_update_token stale self) w ref Hm).
    by rewrite update_token_twice. }
  by rewrite He.
Qed.

(** X9. GET on a status that raises no HTTP error, with a body that is
    not blank and decodes to a value other than null, returns that value
    as it is. *)
Theorem get_returns_decoded_document
    endpoint params (self self' : Client) (w w' : World TM Net) res req r v :
  get endpoint params self w = (res, self', w') ->
  last (trace w') = Some (Exchange req (Reply r)) ->
  status_code r < 400 \/ 600 <= status_code r ->
  PyStr.strip (text r) <> EmptyString ->
  json r = Decoded v ->
  v <> JNull ->
  res = Return v.
Proof.
  intros Hget Hlast Hs Hblank Hj Hv.
  destruct (perform_request (CallGet endpoint params) _ _ _ _ _ _ _ Hget Hlast)
    as (_ & ->).
  unfold outcome_of_reply. rewrite (raise_for_status_quiet _ Hs), Hj. cbn [is_get].
  destruct (text r) as [|a t] eqn:Ht; [by rewrite strip_empty in Hblank|].
  cbn [PyStr.truthy negb orb].
  destruct (String.eqb_spec (PyStr.strip (String a t)) EmptyString) as [He|_]; [done|].
  by destruct v.
Qed.

(** X10. POST, PUT and DELETE on a status that raises no HTTP error
    return whatever the body decodes to, null included, and do not look at
    whether the body is blank. *)
Theorem mutating_verbs_return_decoded_document
    (k : Call) (self self' : Client) (w w' : World TM Net) res req r v :
  is_get k = false ->
  perform k self w = (res, self', w') ->
  last (trace w') = Some (Exchange req (Reply r)) ->
  status_code r < 400 \/ 600 <= status_code r ->
  json r = Decoded v ->
  res = Return v.
Proof.
  intros Hk Hp Hlast Hs Hj.
  destruct (perform_request _ _ _ _ _ _ _ _ Hp Hlast) as (_ & ->).
  unfold outcome_of_reply. by rewrite (raise_for_status_quiet _ Hs), Hj, Hk.
Qed.

(** X11. A base address that does not end in a slash is kept as it is, so
    the address of a request is the given base followed by the endpoint. *)
Theorem base_without_trailing_slash_is_kept
    base tok tm (w w0 w1 w' : World TM Net) (self self' : Client) (k : Call) res req reply :
  PyStr.ends_with "/" base = false ->
  __init__ base tok tm w = (Return self, w0) ->
  perform k self w1 = (res, self', w') ->
  last (trace w') = Some (Exchange req reply) ->
  base_url self = base /\ req_url req = (base +:+ call_endpoint k)%string.
Proof.
  intros Hend Hinit Hk Hlast.
  destruct (init_fields _ _ _ _ _ _ Hinit) as (Hb & _).
  rewrite (rstrip_unchanged _ _ Hend) in Hb.
  destruct (perform_request _ _ _ _ _ _ _ _ Hk Hlast) as (-> & _).
  by rewrite Hb.
Qed.

End ProviderRuns.

(** * The VLAN extraction script *)

Section ExtractVlansFacts.
Import ExtractVlans.
Variable py_str : JValue -> string.

Lemma record_keys vlan_id ssid (t : Table) :
  (record vlan_id ssid t).*1
  = t.*1 ++ (if decide (vlan_id ∈ t.*1) then [] else [vlan_id]).
Proof.
  induction t as [|[k ssids] t IH]; cbn [record].
  - cbn. destruct (decide _) as [Hin|_]; [by apply elem_of_nil in Hin|done].
  - destruct (String.eqb_spec k vlan_id) as [->|Hne].
    + cbn. rewrite decide_True by apply list_elem_of_here. by rewrite app_nil_r.
    + cbn. cbn in IH. rewrite IH.
      destruct (decide (vlan_id ∈ t.*1)) as [Hin|Hnin].
      * rewrite decide_True; [done|]. by apply list_elem_of_further.
      * rewrite decide_False; [done|]. intros [?|?]%elem_of_cons; congruence.
Qed.

Lemma record_well_formed vlan_id ssid (t : Table) :
  NoDup t.*1 /\ Forall (fun e => e.2 <> []) t ->
  NoDup (record vlan_id ssid t).*1 /\ Forall (fun e => e.2 <> []) (record vlan_id ssid t).
Proof.
  intros [Hnd Hne]. split.
  - rewrite record_keys. destruct (decide _) as [Hin|Hnin]; [by rewrite app_nil_r|].
    apply NoDup_app. split; [done|]. split; [|apply NoDup_singleton].
    intros x Hx Hx'%list_elem_of_singleton. by subst.
  - clear Hnd. induction t as [|[k ssids] t IH]; cbn [record].
    + constructor; [done|constructor].
    + apply Forall_cons in Hne as [Hk Hne].
      destruct (String.eqb k vlan_id).
      * constructor; [|done]. cbn. by destruct ssids.
      * constructor; [done|]. by apply IH.
Qed.

Lemma lists_cons k ssids (t : Table) vid s :
  lists ((k, ssids) :: t) vid s <-> (vid = k /\ s ∈ ssids) \/ lists t vid s.
Proof.
  unfold lists. split.
  - intros (l & Hl & Hs). apply elem_of_cons in Hl as [[= -> ->]|Hl]; [by left|].
    right. by exists l.
  - intros [[-> Hs]|(l & Hl & Hs)].
    + exists ssids. split; [apply list_elem_of_here|done].
    + exists l. split; [by apply list_elem_of_further|done].
Qed.

Lemma lists_nil vid s : ~ lists [] vid s.
Proof. intros (l & Hl & _). by apply elem_of_nil in Hl. Qed.

Lemma record_lists vlan_id ssid (t : Table) vid s :
  lists (record vlan_id ssid t) vid s <-> lists t vid s \/ (vid = vlan_id /\ s = ssid).
Proof.
  induction t as [|[k ssids] t IH]; cbn [record].
  - rewrite lists_cons, list_elem_of_singleton. pose proof (lists_nil vid s). tauto.
  - destruct (String.eqb_spec k vlan_id) as [->|Hne].
    + rewrite !lists_cons, elem_of_app, list_elem_of_singleton. tauto.
    + rewrite !lists_cons, IH. tauto.
Qed.

Lemma record_entries vlan_id ssid (t : Table) :
  length (entries_of (record vlan_id ssid t)) = S (length (entries_of t)).
Proof.
  unfold entries_of. induction t as [|[k ssids] t IH]; cbn [record]; [done|].
  destruct (String.eqb k vlan_id); cbn [flat_map snd].
  - rewrite !length_app. cbn. lia.
  - rewrite !length_app, IH. lia.
Qed.

Lemma record_all_pairs ssid vlans (t : Table) :
  record_all py_str ssid vlans t
  = record_pairs (map (fun vlan => (py_str vlan, ssid)) vlans) t.
Proof.
  unfold record_all, record_pairs. revert t.
  induction vlans as [|v vlans IH]; intros t; [done|]. cbn. apply IH.
Qed.

Lemma record_pairs_app ps1 ps2 (t : Table) :
  record_pairs (ps1 ++ ps2) t = record_pairs ps2 (record_pairs ps1 t).
Proof. unfold record_pairs. apply fold_left_app. Qed.

Lemma visit_done wlan (t t' : Table) :
  visit py_str wlan t = Done t' ->
  is_mapping wlan = true
  /\ t' = record_pairs (tunnel_pairs py_str [wlan]) t.
Proof.
  unfold tunnel_pairs. destruct wlan as [| | | | | |entries]; try done.
  cbn [visit is_mapping List.filter is_tunnel]. intros Hv. split; [done|].
  destruct (dict_get "forward-mode" entries) as [mode|];
    cbn [default] in Hv; unfold id in Hv.
  - destruct mode as [| | | |m| |]; try (by injection Hv as <-).
    destruct (String.eqb m "FORWARD_MODE_L2"); [|by injection Hv as <-].
    cbn [flat_map vlans_of ssid_of]. rewrite app_nil_r.
    destruct (py_iter _) as [vlans|e]; [|done]. injection Hv as <-.
    apply record_all_pairs.
  - cbn in Hv. by injection Hv as <-.
Qed.

Lemma tunnel_pairs_cons wlan wlans :
  tunnel_pairs py_str (wlan :: wlans)
  = tunnel_pairs py_str [wlan] ++ tunnel_pairs py_str wlans.
Proof.
  unfold tunnel_pairs. cbn [List.filter]. destruct (is_tunnel wlan); [|done].
  cbn [flat_map]. by rewrite app_nil_r.
Qed.

Lemma visit_all_done wlans (t t' : Table) :
  visit_all py_str wlans t = Done t' ->
  Forall (fun wlan => is_mapping wlan = true) wlans
  /\ t' = record_pairs (tunnel_pairs py_str wlans) t.
Proof.
  revert t. induction wlans as [|wlan wlans IH]; intros t; cbn [visit_all].
  - intros [= <-]. by split.
  - destruct (visit py_str wlan t) as [t1|e] eqn:Hv; [|done]. intros Hall.
    destruct (visit_done _ _ _ Hv) as (Hm & ->).
    destruct (IH _ Hall) as (Hms & ->).
    split; [by constructor|]. by rewrite (tunnel_pairs_cons wlan wlans), record_pairs_app.
Qed.

Lemma record_pairs_well_formed pairs (t : Table) :
  NoDup t.*1 /\ Forall (fun e => e.2 <> []) t ->
  NoDup (record_pairs pairs t).*1 /\ Forall (fun e => e.2 <> []) (record_pairs pairs t).
Proof.
  revert t. induction pairs as [|p pairs IH]; intros t Hwf; [done|].
  cbn. apply IH. by apply record_well_formed.
Qed.

Lemma record_pairs_lists pairs (t : Table) vid s :
  lists (record_pairs pairs t) vid s <-> lists t vid s \/ (vid, s) ∈ pairs.
Proof.
  revert t. induction pairs as [|[v ssid] pairs IH]; intros t.
  - cbn. split; [by left|]. intros [?|Hin]; [done|by apply elem_of_nil in Hin].
  - cbn [record_pairs fold_left]. change (fold_left _ pairs ?u) with (record_pairs pairs u).
    rewrite IH, record_lists. cbn [fst snd]. rewrite elem_of_cons.
    assert ((vid, s) = (v, ssid) <-> vid = v /\ s = ssid) as ->; [|tauto].
    split; [by intros [= -> ->]|by intros [-> ->]].
Qed.

Lemma record_pairs_entries pairs (t : Table) :
  length (entries_of (record_pairs pairs t)) = (length (entries_of t) + length pairs)%nat.
Proof.
  revert t. induction pairs as [|p pairs IH]; intros t.
  { unfold record_pairs. cbn [fold_left length]. lia. }
  cbn [record_pairs fold_left]. change (fold_left _ pairs ?u) with (record_pairs pairs u).
  rewrite IH, record_entries. cbn [length]. lia.
Qed.

Lemma visit_skip wlan (t : Table) :
  is_mapping wlan = true -> is_tunnel wlan = false -> visit py_str wlan t = Done t.
Proof.
  destruct wlan as [| | | | | |entries]; try done. intros _.
  cbn [is_tunnel visit].
  destruct (dict_get "forward-mode" entries) as [mode|]; cbn [default]; unfold id;
    [|done].
  destruct mode as [| | | |m| |]; try done. by intros ->.
Qed.

Lemma visit_all_filter wlans (t : Table) :
  Forall (fun wlan => is_mapping wlan = true) wlans ->
  visit_all py_str wlans t = visit_all py_str (List.filter is_tunnel wlans) t.
Proof.
  intros Hall. revert t. induction Hall as [|wlan wlans Hm _ IH]; intros t; [done|].
  cbn [List.filter visit_all]. destruct (is_tunnel wlan) eqn:Ht.
  - cbn [visit_all]. destruct (visit py_str wlan t); [apply IH|done].
  - rewrite (visit_skip _ _ Hm Ht). apply IH.
Qed.

Lemma elem_of_tunnel_pairs wlans vid s :
  (vid, s) ∈ tunnel_pairs py_str wlans
  <-> exists wlan vlan,
        wlan ∈ wlans /\ is_tunnel wlan = true /\ vlan ∈ vlans_of wlan
        /\ py_str vlan = vid /\ ssid_of wlan = s.
Proof.
  unfold tunnel_pairs. rewrite list_elem_of_In, in_flat_map. split.
  - intros (wlan & [Hin Ht]%filter_In & (vlan & [= <- <-] & Hv)%in_map_iff).
    exists wlan, vlan. by rewrite !list_elem_of_In.
  - intros (wlan & vlan & Hin & Ht & Hv & <- & <-).
    exists wlan. rewrite filter_In, <- list_elem_of_In. split; [done|].
    apply in_map_iff. exists vlan. by rewrite <- list_elem_of_In.
Qed.

Lemma tunnel_pairs_length wlans :
  length (tunnel_pairs py_str wlans)
  = length (flat_map vlans_of (List.filter is_tunnel wlans)).
Proof.
  unfold tunnel_pairs. induction (List.filter is_tunnel wlans) as [|w ws IH]; [done|].
  cbn [flat_map]. by rewrite !length_app, length_map, IH.
Qed.

(** X12. WLANs that are not in tunnel mode play no part: on a list of
    WLAN objects the table, or the error, is the one obtained from the
    tunnel-mode WLANs alone. *)
Theorem non_tunnel_wlans_are_ignored (wlans : list JValue) :
  Forall (fun wlan => is_mapping wlan = true) wlans ->
  extract_tunnel_vlans py_str (JList wlans)
  = extract_tunnel_vlans py_str (JList (List.filter is_tunnel wlans)).
Proof. intros Hall. cbn [extract_tunnel_vlans py_iter]. by apply visit_all_filter. Qed.

(** X13. In a table that is returned each VLAN id stands once and no
    VLAN id has an empty list of SSIDs. *)
Theorem tunnel_vlans_table_is_well_formed (wlans : JValue) (t : Table) :
  extract_tunnel_vlans py_str wlans = Done t ->
  NoDup t.*1 /\ Forall (fun e => e.2 <> []) t.
Proof.
  unfold extract_tunnel_vlans. destruct (py_iter wlans) as [items|e]; [|done].
  intros (_ & ->)%visit_all_done. apply record_pairs_well_formed.
  split; [apply NoDup_nil_2|constructor].
Qed.

(** X14. A table that is returned lists an SSID under a VLAN id exactly
    when some tunnel-mode WLAN goes by that SSID and has, in its VLAN
    range, a value that prints as that id. *)
Theorem tunnel_vlans_lists_exactly_the_tunnel_pairs
    (wlans : JValue) (items : list JValue) (t : Table) vlan_id ssid :
  py_iter wlans = Done items ->
  extract_tunnel_vlans py_str wlans = Done t ->
  lists t vlan_id ssid
  <-> exists wlan vlan,
        wlan ∈ items /\ is_tunnel wlan = true /\ vlan ∈ vlans_of wlan
        /\ py_str vlan = vlan_id /\ ssid_of wlan = ssid.
Proof.
  unfold extract_tunnel_vlans. intros ->. intros (_ & ->)%visit_all_done.
  rewrite record_pairs_lists, elem_of_tunnel_pairs.
  pose proof (lists_nil vlan_id ssid). tauto.
Qed.

(** X15. Each VLAN of each tunnel-mode WLAN adds one entry to the table,
    also when two WLANs share a VLAN or a WLAN names a VLAN twice: the
    entries number as many as the VLANs listed by the tunnel-mode WLANs. *)
Theorem tunnel_vlans_entry_count
    (wlans : JValue) (items : list JValue) (t : Table) :
  py_iter wlans = Done items ->
  extract_tunnel_vlans py_str wlans = Done t ->
  length (entries_of t) = length (flat_map vlans_of (List.filter is_tunnel items)).
Proof.
  unfold extract_tunnel_vlans. intros ->. intros (_ & ->)%visit_all_done.
  by rewrite record_pairs_entries, tunnel_pairs_length.
Qed.

(** X16. One element of the list that is not an object makes the whole
    extraction fail: no table is returned, not even for the WLANs before
    it. *)
Theorem malformed_wlan_aborts_extraction (wlans : list JValue) :
  Exists (fun wlan => is_mapping wlan = false) wlans ->
  exists e, extract_tunnel_vlans py_str (JList wlans) = Failed e.
Proof.
  intros Hex. cbn [extract_tunnel_vlans py_iter].
  destruct (visit_all py_str wlans []) as [t|e] eqn:Hv; [|by exists e].
  destruct (visit_all_done _ _ _ Hv) as (Hall & _).
  apply Exists_exists in Hex as (wlan & Hin & Hm).
  rewrite Forall_forall in Hall. specialize (Hall _ Hin). congruence.
Qed.

End ExtractVlansFacts.

Section ExtractVlansSamples.
Import ExtractVlans Samples.

Example extract_sample :
  extract_tunnel_vlans str_of (JList [corp; guest; lab])
  = Done [("10"%string, [JStr "corp"]); ("20"%string, [JStr "corp"; JStr "lab"])].
Proof. reflexivity. Qed.

Lemma non_tunnel_wlans_are_ignored_witness :
  extract_tunnel_vlans str_of (JList [corp; guest; lab])
  = extract_tunnel_vlans str_of (JList [corp; lab]).
Proof.
  apply (non_tunnel_wlans_are_ignored str_of [corp; guest; lab]).
  repeat constructor.
Defined.

Lemma tunnel_vlans_table_is_well_formed_witness :
  let t : Table :=
    [("10"%string, [JStr "corp"]); ("20"%string, [JStr "corp"; JStr "lab"])] in
  NoDup t.*1 /\ Forall (fun e => e.2 <> []) t.
Proof.
  intros t.
  apply (tunnel_vlans_table_is_well_formed str_of (JList [corp; guest; lab]) t).
  reflexivity.
Defined.

Lemma tunnel_vlans_lists_witness :
  lists [("10"%string, [JStr "corp"]); ("20"%string, [JStr "corp"; JStr "lab"])]
    "20" (JStr "lab").
Proof.
  apply (tunnel_vlans_lists_exactly_the_tunnel_pairs str_of
           (JList [corp; guest; lab]) [corp; guest; lab] _ "20"%string (JStr "lab")).
  - reflexivity.
  - reflexivity.
  - exists lab, (JInt 20). repeat split; try reflexivity.
    + do 2 apply list_elem_of_further. apply list_elem_of_here.
    + apply list_elem_of_here.
Defined.

Lemma tunnel_vlans_entry_count_witness :
  length (entries_of
            [("10"%string, [JStr "corp"]); ("20"%string, [JStr "corp"; JStr "lab"])])
  = 3%nat.
Proof.
  apply (tunnel_vlans_entry_count str_of (JList [corp; guest; lab]) [corp; guest; lab]).
  - reflexivity.
  - reflexivity.
Defined.

Lemma malformed_wlan_aborts_witness :
  exists e, extract_tunnel_vlans str_of (JList [corp; JStr "lab"]) = Failed e.
Proof.
  apply (malformed_wlan_aborts_extraction str_of [corp; JStr "lab"]).
  apply Exists_cons_tl, Exists_cons_hd. reflexivity.
Defined.

End ExtractVlansSamples.

(** * The further client properties on the test doubles *)

Section MoreConcrete.
Import CentralAPIClient Scripted.

(** A POST with a body and a query parameter. *)
Lemma arguments_forwarded_witness :
  let data := Some [("ssid"%string, JStr "corp")] in
  let params := Some [("limit"%string, JInt 5)] in
  let out := perform (CallPost "/wlans" data params) managed_client
               (world rotating [object_body]) in
  map (fun req => (req_verb req, req_params req, req_json req)) (requests_of (trace out.2))
  = [(POST, params, data)].
Proof.
  intros data params out.
  assert (Hout : perform (CallPost "/wlans" data params) managed_client
                   (world rotating [object_body]) = (out.1.1, out.1.2, out.2))
    by reflexivity.
  assert (Hlast : last (trace out.2)
                  = Some (Exchange
                            (mkRequest POST "https://central.example/wlans"
                               (headers (session out.1.2)) params data)
                            (Reply object_body))) by reflexivity.
  destruct (arguments_forwarded_unmodified _ _ _ _ _ _ _ _ Hout Hlast) as (Hv & Hp & Hj).
  reflexivity.
Defined.

(** Three calls of which the second fails with a 404 and the third finds
    the connection refused. *)
Lemma one_request_per_call_witness :
  let ks := [CallGet "/aps" None; CallDelete "/wlans/guest" None;
             CallPut "/wlans/corp" None None] in
  let out := run ks static_client (world rotating [object_body; not_found]) in
  length out.1.1 = 3%nat
  /\ exists new, trace out.2 = [] ++ new
                 /\ length (requests_of new) = 3%nat
                 /\ map req_verb (requests_of new) = [GET; DELETE; PUT].
Proof.
  intros ks out.
  apply (one_request_per_call ks static_client out.1.2
           (world rotating [object_body; not_found]) out.2 out.1.1).
  reflexivity.
Defined.

(** GET with nothing left to answer: the connection is refused. *)
Lemma transport_failure_witness :
  (perform (CallGet "/aps" None) static_client (world rotating [])).1.1
  = Raise (RequestException "connection refused").
Proof.
  eapply (transport_failure_propagates (CallGet "/aps" None) static_client _
            (world rotating [])).
  - reflexivity.
  - reflexivity.
Defined.

Lemma content_type_witness :
  let ks := [CallGet "/aps" None; CallPost "/wlans" None None] in
  let out := run ks static_client (world rotating [object_body; not_found]) in
  headers (session out.1.2) !! "Content-Type"%string = Some "application/json"%string.
Proof.
  intros ks out.
  eapply (content_type_always_json "https://central.example/" (Some "s3cret"%string)
            None (world rotating []) (world rotating []) static_client ks
            (world rotating [object_body; not_found]) out.2 out.1.2 out.1.1).
  - reflexivity.
  - reflexivity.
Defined.

Lemma calls_only_touch_authorization_witness :
  let ks := [CallGet "/aps" None; CallPost "/wlans" None None] in
  let out := run ks managed_client (world rotating [object_body; not_found]) in
  base_url out.1.2 = "https://central.example"%string
  /\ token_manager out.1.2 = Some TheManager
  /\ forall key, key <> "Authorization"%string ->
       headers (session out.1.2) !! key = headers (session managed_client) !! key.
Proof.
  intros ks out.
  apply (calls_only_touch_authorization ks managed_client out.1.2
           (world rotating [object_body; not_found]) out.2 out.1.1).
  reflexivity.
Defined.

(** Three calls on a provider that moves from "t1" to "t2" to "t3". *)
Lemma every_request_carries_its_own_token_witness :
  let ks := [CallGet "/aps" None; CallPost "/wlans" None None;
             CallDelete "/wlans/guest" None] in
  let out := run ks managed_client (world rotating [object_body; not_found]) in
  exists new,
    trace out.2 = [] ++ new
    /\ fetches_of new = ["t1"%string; "t2"%string; "t3"%string]
    /\ map authorization (requests_of new)
       = [Some "Bearer t1"%string; Some "Bearer t2"%string; Some "Bearer t3"%string].
Proof.
  intros ks out.
  assert (Hm : token_manager managed_client = Some TheManager) by reflexivity.
  assert (Hout : run ks managed_client (world rotating [object_body; not_found])
                 = (out.1.1, out.1.2, out.2)) by reflexivity.
  destruct (every_request_carries_its_own_token _ _ _ _ _ _ _ Hm Hout) as (_ & Hnew & _).
  exact Hnew.
Defined.

Lemma stale_token_witness :
  perform (CallGet "/aps" None) (_update_token "old" managed_client)
    (world rotating [object_body])
  = perform (CallGet "/aps" None) managed_client (world rotating [object_body]).
Proof.
  apply (stale_token_is_never_used (CallGet "/aps" None) managed_client
           (world rotating [object_body]) TheManager "old"%string).
  reflexivity.
Defined.

(** GET on a 200 whose body is a JSON list. *)
Lemma get_returns_decoded_document_witness :
  (get "/aps" None static_client (world rotating [list_body])).1.1 = Return (JList []).
Proof.
  eapply (get_returns_decoded_document "/aps" None static_client _
            (world rotating [list_body]) _ _ _ list_body).
  - reflexivity.
  - reflexivity.
  - left. reflexivity.
  - discriminate.
  - reflexivity.
  - discriminate.
Defined.

(** DELETE on a 200 whose body is null. *)
Lemma mutating_verbs_return_decoded_document_witness :
  (perform (CallDelete "/wlans/guest" None) static_client (world rotating [null_body])).1.1
  = Return JNull.
Proof.
  eapply (mutating_verbs_return_decoded_document (CallDelete "/wlans/guest" None)
            static_client _ (world rotating [null_body]) _ _ _ null_body).
  - reflexivity.
  - reflexivity.
  - reflexivity.
  - left. reflexivity.
  - reflexivity.
Defined.

Lemma base_without_trailing_slash_witness :
  let out := perform (CallGet "/aps" None) static_client (world rotating [object_body]) in
  map req_url (requests_of (trace out.2)) = ["https://central.example/aps"%string].
Proof.
  intros out.
  assert (Hend : PyStr.ends_with "/" "https://central.example" = false) by reflexivity.
  assert (Hinit : __init__ "https://central.example" (Some "s3cret"%string) None
                    (world rotating [])
                  = (Return static_client, world rotating [])) by reflexivity.
  assert (Hout : perform (CallGet "/aps" None) static_client
                   (world rotating [object_body]) = (out.1.1, out.1.2, out.2))
    by reflexivity.
  assert (Hlast : last (trace out.2)
                  = Some (Exchange
                            (mkRequest GET "https://central.example/aps"
                               (headers (session out.1.2)) None None)
                            (Reply object_body))) by reflexivity.
  destruct (base_without_trailing_slash_is_kept _ _ _ _ _ _ _ _ _ _ _ _ _
              Hend Hinit Hout Hlast) as (_ & Hurl).
  reflexivity.
Defined.

End MoreConcrete.

(** * The configuration loader *)

Lemma dict_get_set_eq key v entries : dict_get key (dict_set key v entries) = Some v.
Proof.
  induction entries as [|[k v0] entries IH]; cbn [dict_set dict_get].
  - by rewrite String.eqb_refl.
  - destruct (String.eqb k key) eqn:Hk; cbn [dict_get]; by rewrite Hk.
Qed.

Lemma dict_get_set_ne key key' v entries :
  key' <> key -> dict_get key' (dict_set key v entries) = dict_get key' entries.
Proof.
  intros Hne. induction entries as [|[k v0] entries IH]; cbn [dict_set dict_get].
  - destruct (String.eqb_spec key key'); [congruence|done].
  - destruct (String.eqb_spec k key) as [->|Hk]; cbn [dict_get].
    + by destruct (String.eqb_spec key key'); [congruence|].
    + by rewrite IH.
Qed.

Section ConfigFacts.
Import Config.
Variable float_truthy : string -> bool.

(** The section [load_config] writes, given the environment and the
    top-level entries read from the file. *)
Lemma override_ok environ entries :
  section_ok entries = true ->
  override environ (JDict entries)
  = Done (dict_set "aruba_central"
            (JDict (map (fun '(key, var, fallback) =>
                           (key, getenv environ var
                                   (default fallback (section_value entries key))))
                      settings))
            entries).
Proof.
  unfold section_ok, override, setting, section_value.
  destruct (dict_get "aruba_central" entries) as [[| | | | | |section]|]; try done.
Qed.

Lemma override_bad environ entries :
  section_ok entries = false ->
  override environ (JDict entries) = Failed (AttributeError "get").
Proof.
  unfold section_ok, override, setting.
  by destruct (dict_get "aruba_central" entries) as [[| | | | | |section]|].
Qed.

Lemma override_not_mapping environ doc :
  is_mapping doc = false -> override environ doc = Failed (AttributeError "get").
Proof. by destruct doc. Qed.

(** What a successful load has read and returns. *)
Lemma load_config_done dotenv environ config_file cfg :
  load_config float_truthy dotenv environ config_file = Done cfg ->
  section_ok (file_entries config_file) = true
  /\ cfg = dict_set "aruba_central"
             (JDict (map (fun '(key, var, fallback) =>
                            (key, getenv (load_dotenv dotenv environ) var
                                    (default fallback
                                       (section_value (file_entries config_file) key))))
                       settings))
             (file_entries config_file).
Proof.
  unfold load_config.
  assert (Hov : forall entries,
            override (load_dotenv dotenv environ) (JDict entries) = Done cfg ->
            section_ok entries = true
            /\ cfg = dict_set "aruba_central"
                       (JDict (map (fun '(key, var, fallback) =>
                                      (key, getenv (load_dotenv dotenv environ) var
                                              (default fallback
                                                 (section_value entries key))))
                                 settings))
                       entries).
  { intros entries Hov. destruct (section_ok entries) eqn:Hok.
    - rewrite (override_ok _ _ Hok) in Hov. by injection Hov as <-.
    - by rewrite (override_bad _ _ Hok) in Hov. }
  destruct config_file as [|doc|e]; [apply Hov| |done].
  destruct (py_truthy float_truthy doc) eqn:Ht.
  - destruct doc as [| | | | | |entries];
      try (by rewrite override_not_mapping). apply Hov.
  - intros H. destruct doc as [| | | | | |entries]; try (by apply Hov in H).
    destruct entries; [by apply Hov in H|done].
Qed.

Lemma loaded_section_value dotenv environ config_file cfg key var fallback :
  (key, var, fallback) ∈ settings ->
  load_config float_truthy dotenv environ config_file = Done cfg ->
  section_value cfg key
  = Some (getenv (load_dotenv dotenv environ) var
            (default fallback (section_value (file_entries config_file) key))).
Proof.
  intros Hin (_ & ->)%load_config_done.
  unfold section_value at 1. rewrite dict_get_set_eq.
  unfold settings in Hin.
  repeat (apply elem_of_cons in Hin as [[= -> -> ->]|Hin]; [reflexivity|]).
  by apply elem_of_nil in Hin.
Qed.

(** X17. A configuration that is returned always has the entry
    aruba_central, a mapping with exactly the seven settings base_url,
    client_id, client_secret, customer_id, access_token, username and
    password; whatever else the file had under aruba_central is gone. *)
Theorem loaded_config_has_the_seven_settings dotenv environ config_file cfg :
  load_config float_truthy dotenv environ config_file = Done cfg ->
  exists section,
    dict_get "aruba_central" cfg = Some (JDict section)
    /\ section.*1 = ["base_url"; "client_id"; "client_secret"; "customer_id";
                     "access_token"; "username"; "password"]%string.
Proof.
  intros (_ & ->)%load_config_done. eexists. rewrite dict_get_set_eq.
  split; reflexivity.
Qed.

(** X18. A setting whose environment variable is set, after the .env file
    has been applied, has the value of the variable, the empty string
    included, whatever the file says. *)
Theorem environment_variable_wins
    dotenv environ config_file cfg key var fallback value :
  (key, var, fallback) ∈ settings ->
  load_config float_truthy dotenv environ config_file = Done cfg ->
  load_dotenv dotenv environ !! var = Some value ->
  section_value cfg key = Some (JStr value).
Proof.
  intros Hin Hload Henv.
  rewrite (loaded_section_value _ _ _ _ _ _ _ Hin Hload).
  unfold getenv. by rewrite Henv.
Qed.

(** X19. A setting whose environment variable is not set has the value the
    file gives it under aruba_central, and the built-in default when the
    file gives none. *)
Theorem file_value_then_default
    dotenv environ config_file cfg key var fallback :
  (key, var, fallback) ∈ settings ->
  load_config float_truthy dotenv environ config_file = Done cfg ->
  load_dotenv dotenv environ !! var = None ->
  section_value cfg key
  = Some (default fallback (section_value (file_entries config_file) key)).
Proof.
  intros Hin Hload Henv.
  rewrite (loaded_section_value _ _ _ _ _ _ _ Hin Hload).
  unfold getenv. by rewrite Henv.
Qed.

(** X20. A variable given in the .env file beats the same variable of the
    process environment. *)
Theorem dotenv_beats_process_environment
    vars environ config_file cfg key var fallback value :
  (key, var, fallback) ∈ settings ->
  vars !! var = Some value ->
  load_config float_truthy (Some vars) environ config_file = Done cfg ->
  section_value cfg key = Some (JStr value).
Proof.
  intros Hin Hvar Hload.
  rewrite (loaded_section_value _ _ _ _ _ _ _ Hin Hload).
  unfold getenv, load_dotenv. by rewrite (lookup_union_Some_l _ _ _ _ Hvar).
Qed.

(** X21. The other top-level entries of the file come back as they were. *)
Theorem other_entries_are_preserved dotenv environ config_file cfg key :
  key <> "aruba_central"%string ->
  load_config float_truthy dotenv environ config_file = Done cfg ->
  dict_get key cfg = dict_get key (file_entries config_file).
Proof.
  intros Hne (_ & ->)%load_config_done. by apply dict_get_set_ne.
Qed.

(** X22. A file whose document is true and not a mapping, or whose
    aruba_central entry is not a mapping (an entry left empty, say), makes
    the load fail with an attribute error, also when the environment gives
    every setting. *)
Theorem malformed_file_is_fatal dotenv environ doc :
  (py_truthy float_truthy doc = true /\ is_mapping doc = false)
  \/ (exists entries v, doc = JDict entries
                        /\ dict_get "aruba_central" entries = Some v
                        /\ is_mapping v = false) ->
  load_config float_truthy dotenv environ (Parsed doc) = Failed (AttributeError "get").
Proof.
  unfold load_config. intros [[-> Hm]|(entries & v & -> & Hget & Hm)].
  - by apply override_not_mapping.
  - assert (py_truthy float_truthy (JDict entries) = true) as ->
      by (by destruct entries).
    apply override_bad. unfold section_ok. rewrite Hget. by destruct v.
Qed.

End ConfigFacts.

Section ConfigSamples.
Import Config Samples.

Example load_sample :
  load_config float_truthy (Some dotenv_vars) process_env (Parsed config_doc)
  = Done loaded_sample.
Proof. reflexivity. Qed.

Example load_defaults :
  load_config float_truthy None ∅ Missing
  = Done [("aruba_central"%string,
           JDict [("base_url"%string,
                   JStr "https://apigw-prod2.central.arubanetworks.com");
                  ("client_id"%string, JStr EmptyString);
                  ("client_secret"%string, JStr EmptyString);
                  ("customer_id"%string, JStr EmptyString);
                  ("access_token"%string, JNull);
                  ("username"%string, JNull);
                  ("password"%string, JNull)])].
Proof. reflexivity. Qed.

Lemma loaded_config_has_the_seven_settings_witness :
  exists section,
    dict_get "aruba_central" loaded_sample = Some (JDict section)
    /\ section.*1 = ["base_url"; "client_id"; "client_secret"; "customer_id";
                     "access_token"; "username"; "password"]%string.
Proof.
  apply (loaded_config_has_the_seven_settings float_truthy (Some dotenv_vars)
           process_env (Parsed config_doc) loaded_sample).
  reflexivity.
Defined.

(** The customer id is set to the empty string in the environment. *)
Lemma environment_variable_wins_witness :
  section_value loaded_sample "customer_id" = Some (JStr EmptyString).
Proof.
  apply (environment_variable_wins float_truthy (Some dotenv_vars) process_env
           (Parsed config_doc) loaded_sample "customer_id" "ARUBA_CUSTOMER_ID"
           (JStr EmptyString) EmptyString).
  - do 3 apply list_elem_of_further. apply list_elem_of_here.
  - reflexivity.
  - reflexivity.
Defined.

(** The base address comes from the file, the password from the default. *)
Lemma file_value_then_default_witness :
  section_value loaded_sample "base_url" = Some (JStr "https://file.example")
  /\ section_value loaded_sample "password" = Some JNull.
Proof.
  split.
  - apply (file_value_then_default float_truthy (Some dotenv_vars) process_env
             (Parsed config_doc) loaded_sample "base_url" "ARUBA_BASE_URL"
             (JStr "https://apigw-prod2.central.arubanetworks.com")).
    + apply list_elem_of_here.
    + reflexivity.
    + reflexivity.
  - apply (file_value_then_default float_truthy (Some dotenv_vars) process_env
             (Parsed config_doc) loaded_sample "password" "ARUBA_PASSWORD" JNull).
    + do 6 apply list_elem_of_further. apply list_elem_of_here.
    + reflexivity.
    + reflexivity.
Defined.

Lemma dotenv_beats_process_environment_witness :
  section_value loaded_sample "client_id" = Some (JStr "dotenv-id").
Proof.
  apply (dotenv_beats_process_environment float_truthy dotenv_vars process_env
           (Parsed config_doc) loaded_sample "client_id" "ARUBA_CLIENT_ID"
           (JStr EmptyString) "dotenv-id"%string).
  - apply list_elem_of_further, list_elem_of_here.
  - reflexivity.
  - reflexivity.
Defined.

Lemma other_entries_are_preserved_witness :
  dict_get "logging" loaded_sample = Some (JDict [("level"%string, JStr "debug")]).
Proof.
  apply (other_entries_are_preserved float_truthy (Some dotenv_vars) process_env
           (Parsed config_doc) loaded_sample "logging"%string).
  - discriminate.
  - reflexivity.
Defined.

(** A file that says [aruba_central:] and nothing after it. *)
Lemma malformed_file_is_fatal_witness :
  load_config float_truthy None process_env
    (Parsed (JDict [("aruba_central"%string, JNull)]))
  = Failed (AttributeError "get").
Proof.
  apply (malformed_file_is_fatal float_truthy None process_env).
  right. exists [("aruba_central"%string, JNull)], JNull. by repeat split.
Defined.

End ConfigSamples.
